(** * go-http-request: the request builder and its execution pipeline

    A shallow embedding of package [http_request]: the [RequestBuilder]
    configuration calls, the [request] executor, and the terminal operations
    [Get] and [PostJSON] (both revisions of them).

    Go values are embedded as follows.
    - [string] is a Go string, [list byte] a Go [[]byte]; the two conversions
      are [string_of_list_byte] and [list_byte_of_string].
    - [http.Header] is a finite map from (canonical) names to value lists.
    - [*http.Client] is an address into a store of client objects, so that
      copying a client and mutating one in place are different things.
    - The file system, the diagnostic stream and the network are a [World]
      threaded through the executor, which also records every effect it
      performs in a trace of [Event]s. *)

From Stdlib Require Import ZArith String Ascii List Bool Lia.
From Stdlib Require Import Strings.Byte.
From stdpp Require Import base strings gmap list.
Import ListNotations.
Local Open Scope string_scope.

(** ** Errors *)

(** Go [error] values.  [LibError] is an error produced by a collaborator
    (url, json, gzip, os, the transport); the remaining constructors are the
    error values this package and [net/http]'s client build themselves. *)
Inductive error : Type :=
| LibError (pkg msg : string)
| ErrRedirect                                     (* errors.New("redirect") *)
| ErrUseLastResponse                              (* http.ErrUseLastResponse *)
| ErrorfCompress (gzErr : error)                  (* "compress body err: %+v" *)
| ErrorfLog (err : error)                         (* "log err: %w" *)
| ErrorfResponse (code : Z) (status body : string) (* "response err: %v %v %v" *)
| ErrorfLocation (loc : string) (err : error)     (* "failed to parse Location header %q: %v" *)
| UrlError (op url : string) (err : error).       (* *url.Error *)

Definition error_eq_dec (a b : error) : {a = b} + {a <> b}.
Proof. decide equality; (apply string_dec || apply Z.eq_dec). Defined.

(** [errors.Unwrap]: only [%w] and [*url.Error] expose the wrapped error. *)
Definition Unwrap (e : error) : option error :=
  match e with
  | ErrorfLog err => Some err
  | UrlError _ _ err => Some err
  | _ => None
  end.

(** [errors.Is(err, target)]. *)
Fixpoint errors_Is (err target : error) : bool :=
  if error_eq_dec err target then true
  else match err with
       | ErrorfLog e => errors_Is e target
       | UrlError _ _ e => errors_Is e target
       | _ => false
       end.

(** A Go call returning [(T, error)]. *)
Abbreviation Result A := (sum error A).

(** ** Headers *)

Abbreviation http_Header := (gmap string (list string)).

Definition isLower (c : ascii) : bool :=
  (97 <=? nat_of_ascii c)%nat && (nat_of_ascii c <=? 122)%nat.
Definition isUpper (c : ascii) : bool :=
  (65 <=? nat_of_ascii c)%nat && (nat_of_ascii c <=? 90)%nat.
Definition isDigit (c : ascii) : bool :=
  (48 <=? nat_of_ascii c)%nat && (nat_of_ascii c <=? 57)%nat.

Definition toUpper (c : ascii) : ascii :=
  if isLower c then ascii_of_nat (nat_of_ascii c - 32) else c.
Definition toLower (c : ascii) : ascii :=
  if isUpper c then ascii_of_nat (nat_of_ascii c + 32) else c.

(** [textproto.validHeaderFieldByte]: the token characters of RFC 7230. *)
Definition validHeaderFieldByte (c : ascii) : bool :=
  isLower c || isUpper c || isDigit c
  || existsb (Ascii.eqb c) (list_ascii_of_string "!#$%&'*+-.^_`|~").

Fixpoint validHeaderName (s : string) : bool :=
  match s with
  | EmptyString => true
  | String c s' => validHeaderFieldByte c && validHeaderName s'
  end.

(** The canonicalising loop: upper case for the first letter and for a letter
    after a hyphen, lower case for the rest. *)
Fixpoint canonLoop (upper : bool) (s : string) : string :=
  match s with
  | EmptyString => EmptyString
  | String c s' =>
      let c' := if upper then toUpper c else toLower c in
      String c' (canonLoop (Ascii.eqb c' "-") s')
  end.

(** [textproto.CanonicalMIMEHeaderKey]: a key holding a space or another byte
    that is not a token character is returned without modification. *)
Definition CanonicalMIMEHeaderKey (s : string) : string :=
  if validHeaderName s then canonLoop true s else s.

(** [Header.Set]: [h[CanonicalMIMEHeaderKey(key)] = []string{value}]. *)
Definition Header_Set (h : http_Header) (key value : string) : http_Header :=
  <[CanonicalMIMEHeaderKey key := [value]]> h.

(** [Header.Add]: append to the values stored under the canonical key. *)
Definition Header_Add (h : http_Header) (key value : string) : http_Header :=
  let k := CanonicalMIMEHeaderKey key in
  <[k := (default [] (h !! k) ++ [value])%list]> h.

(** [Header.Values]. *)
Definition Header_Values (h : http_Header) (key : string) : list string :=
  default [] (h !! CanonicalMIMEHeaderKey key).

(** [Header.Get]: the first value, or the empty string. *)
Definition Header_Get (h : http_Header) (key : string) : string :=
  match Header_Values h key with
  | v :: _ => v
  | [] => EmptyString
  end.

(** ASCII case folding of a name, and equality of names up to case. *)
Fixpoint foldCase (s : string) : string :=
  match s with
  | EmptyString => EmptyString
  | String c s' => String (toLower c) (foldCase s')
  end.

Definition EqualFold (a b : string) : Prop := foldCase a = foldCase b.

(** The shape that [Header.Set] gives a header: every name is in canonical
    form and carries exactly one value. *)
Definition singleValued (h : http_Header) : Prop :=
  forall k vs, h !! k = Some vs ->
    CanonicalMIMEHeaderKey k = k /\ exists v, vs = [v].

(** The nested loops [for header, values := range ... { for _, value := range
    values { target.Add(header, value) } }] run over the entries in a given
    order. *)
Definition addHeaders (entries : list (string * list string))
    (target : http_Header) : http_Header :=
  foldl (fun acc kv => foldl (fun acc value => Header_Add acc (fst kv) value)
                             acc (snd kv))
        target entries.

(** ** The executor's collaborators *)

(** Collaborators outside the package are kept abstract: [context.Context]
    values; parsed URLs ([*url.URL]) with [url.Parse], [URL.Parse] (a
    reference resolved against a base), [net/http]'s rendering
    [stripPassword] of a URL for error values and the headers it gives the
    request that follows a redirect; the payload values handed to
    [json.Marshal]; the targets handed to [json.Decoder.Decode] (with
    [UseNumber] set), which reports an error and leaves the target changed;
    the gzip writer; and [strconv.Quote]. *)
Class Collaborators : Type := {
  GoContext : Type;
  URL : Type;
  url_Parse : string -> Result URL;
  URL_Parse : URL -> string -> Result URL;
  stripPassword : URL -> string;
  redirectHeader : http_Header -> URL -> URL -> http_Header;
  Value : Type;
  json_Marshal : Value -> Result (list byte);
  Dest : Type;
  json_Decode : list byte -> Dest -> option error * Dest;
  json_DecodePlainHtml : list byte -> string -> option error * string;
  json_DecodeAny : list byte -> option error;
  GzWriter : Type;
  gzip_NewWriter : GzWriter;
  gz_Write : GzWriter -> list byte -> Result GzWriter;
  gz_Flush : GzWriter -> Result GzWriter;
  gz_Close : GzWriter -> Result GzWriter;
  gz_Bytes : GzWriter -> list byte;
  strconv_Quote : string -> string;
}.

Section HttpRequest.

Context `{Collaborators}.

(** [*http.Request], as far as this package reads and writes it. *)
Record Request : Type := mkRequest {
  Method : string;
  ReqURL : URL;
  ReqHeader : http_Header;
  ReqBody : option (list byte);
  ReqCtx : GoContext;
}.

(** [*http.Response]: [RespBody] and [RespBodyErr] are what reading the body
    stream to its end yields. *)
Record Response : Type := mkResponse {
  StatusCode : Z;
  Status : string;
  RespHeader : http_Header;
  RespBody : list byte;
  RespBodyErr : option error;
}.

(** An [http.RoundTripper]: an [http.Transport] with its [Proxy] setting, or
    some other implementation supplied by the caller. *)
Inductive RoundTripper : Type :=
| HttpTransport (Proxy : option URL)
| CustomRoundTripper (id : nat).

(** [http.Client]. A [Transport] of [None] is [nil] ([http.DefaultTransport]
    is used), a [CheckRedirect] of [None] is [nil] (the default policy). *)
Record Client : Type := mkClient {
  Transport : option RoundTripper;
  CheckRedirect : option (Request -> list Request -> option error);
  Jar : option nat;
  Timeout : Z;
}.

(** The zero [http.Client{}]. *)
Definition zeroClient : Client :=
  {| Transport := None; CheckRedirect := None; Jar := None; Timeout := 0 |}.

(** *** Client objects *)

(** A [*http.Client]: the process-wide [http.DefaultClient], or a client
    allocated at an address of the store. *)
Inductive ClientPtr : Type :=
| DefaultClient
| ClientAt (a : nat).

Record Store : Type := mkStore {
  defaultClient : Client;
  cells : list Client;
}.

(** [*p]. Go has no dangling pointers; outside the allocated addresses the
    model reads the zero client. *)
Definition deref (st : Store) (p : ClientPtr) : Client :=
  match p with
  | DefaultClient => defaultClient st
  | ClientAt a => default zeroClient (cells st !! a)
  end.

(** [&c]: a fresh client object holding [c]. *)
Definition new (st : Store) (c : Client) : ClientPtr * Store :=
  (ClientAt (length (cells st)),
   {| defaultClient := defaultClient st; cells := cells st ++ [c] |}).

Definition allocated (st : Store) (p : ClientPtr) : Prop :=
  match p with
  | DefaultClient => True
  | ClientAt a => a < length (cells st)
  end.

(** *** The world *)

(** One exchange with the network: what the round tripper in use answers to
    the request it is given. *)
Definition Exchange : Type := option RoundTripper -> Request -> Result Response.

(** The environment of an execution: the exchanges the network will still
    serve, in order ([netDown] is what a transport reports once none is
    left), and the outcome of [ioutil.WriteFile] for a name, content and
    permission ([None] is success). *)
Record World : Type := mkWorld {
  network : list Exchange;
  netDown : error;
  WriteFile : string -> list byte -> Z -> option error;
}.

(** The effects an execution performs. *)
Inductive Event : Type :=
| EvWriteFile (name : string) (data : list byte) (perm : Z)
| EvStderr (line : string)
| EvRoundTrip (t : option RoundTripper) (r : Request)
| EvReadAll
| EvDiscard
| EvBodyClose.

(** An event that touches the network. *)
Definition isNetwork (e : Event) : bool :=
  match e with
  | EvRoundTrip _ _ | EvReadAll | EvDiscard | EvBodyClose => true
  | _ => false
  end.

Record State : Type := mkState {
  world : World;
  store : Store;
  trace : list Event;
}.

(** *** Stateful, fallible computations *)

Definition M (A : Type) : Type := State -> Result A * State.

Definition ret {A} (a : A) : M A := fun s => (inr a, s).
Definition fail {A} (e : error) : M A := fun s => (inl e, s).
Definition bind {A B} (m : M A) (k : A -> M B) : M B :=
  fun s => match m s with
           | (inr a, s') => k a s'
           | (inl e, s') => (inl e, s')
           end.

(** Lift a Go call returning [(T, error)] that has no effect. *)
Definition lift {A} (r : Result A) : M A := fun s => (r, s).

(** Replace the error of a failing computation. *)
Definition wrapErr {A} (f : error -> error) (m : M A) : M A :=
  fun s => match m s with
           | (inl e, s') => (inl (f e), s')
           | r => r
           end.

(** Run [m], then [fin], whatever [m] returned ([defer]). *)
Definition defer {A} (fin : State -> State) (m : M A) : M A :=
  fun s => let (r, s') := m s in (r, fin s').

Definition emit (e : Event) : M unit :=
  fun s => (inr tt, {| world := world s; store := store s;
                       trace := trace s ++ [e] |}).

Definition emitted (e : Event) (s : State) : State :=
  {| world := world s; store := store s; trace := trace s ++ [e] |}.

Definition when (b : bool) (m : M unit) : M unit := if b then m else ret tt.

Notation "'do' x <- m ;; k" := (bind m (fun x => k))
  (at level 10, x name, m at level 99, k at level 200).

(** ** The builder *)

Record RequestBuilder : Type := mkBuilder {
  buildErr : option error;
  header : http_Header;
  log : bool;
  logFile : string;
  enableCompress : bool;
  disableRedirect : bool;
  client : option ClientPtr;
}.

Definition New : RequestBuilder :=
  {| buildErr := None; header := ∅; log := false; logFile := EmptyString;
     enableCompress := false; disableRedirect := false; client := None |}.

Definition isEmpty (s : string) : bool :=
  match s with EmptyString => true | _ => false end.

Definition Header (name value : string) (c : RequestBuilder) : RequestBuilder :=
  {| buildErr := buildErr c; header := Header_Set (header c) name value;
     log := log c; logFile := logFile c; enableCompress := enableCompress c;
     disableRedirect := disableRedirect c; client := client c |}.

Definition setBuildErr (c : RequestBuilder) (e : option error) : RequestBuilder :=
  {| buildErr := e; header := header c;
     log := log c; logFile := logFile c; enableCompress := enableCompress c;
     disableRedirect := disableRedirect c; client := client c |}.

Definition setClient (c : RequestBuilder) (p : option ClientPtr) : RequestBuilder :=
  {| buildErr := buildErr c; header := header c;
     log := log c; logFile := logFile c; enableCompress := enableCompress c;
     disableRedirect := disableRedirect c; client := p |}.

Definition setTransport (cl : Client) (t : option RoundTripper) : Client :=
  {| Transport := t; CheckRedirect := CheckRedirect cl; Jar := Jar cl;
     Timeout := Timeout cl |}.

Definition setCheckRedirect (cl : Client)
    (f : option (Request -> list Request -> option error)) : Client :=
  {| Transport := Transport cl; CheckRedirect := f; Jar := Jar cl;
     Timeout := Timeout cl |}.

(** [WithProxy] is the one configuration call that allocates: it returns the
    builder together with the store of client objects. *)
Definition WithProxy (proxyURL : string) (c : RequestBuilder) (st : Store)
    : RequestBuilder * Store :=
  if isEmpty proxyURL then (c, st)
  else match buildErr c with
  | Some _ => (c, st)
  | None =>
    match url_Parse proxyURL with
    | inl err => (setBuildErr c (Some err), st)
    | inr proxyUrl =>
      let proxyTransport := HttpTransport (Some proxyUrl) in
      match client c with
      | None =>
          let (p, st') := new st (setTransport zeroClient (Some proxyTransport)) in
          (setClient c (Some p), st')
      | Some p0 =>
          let clone := deref st p0 in
          let clone := setTransport clone (Some proxyTransport) in
          let (p, st') := new st clone in
          (setClient c (Some p), st')
      end
    end
  end.

Definition WithClient (cl : option ClientPtr) (c : RequestBuilder) : RequestBuilder :=
  setClient c cl.

Definition Compressed (c : RequestBuilder) : RequestBuilder :=
  {| buildErr := buildErr c; header := header c;
     log := log c; logFile := logFile c; enableCompress := true;
     disableRedirect := disableRedirect c; client := client c |}.

Definition DisableRedirect (c : RequestBuilder) : RequestBuilder :=
  {| buildErr := buildErr c; header := header c;
     log := log c; logFile := logFile c; enableCompress := enableCompress c;
     disableRedirect := true; client := client c |}.

(** [Log(v ...bool)]. *)
Definition Log (v : list bool) (c : RequestBuilder) : RequestBuilder :=
  {| buildErr := buildErr c; header := header c;
     log := match v with v0 :: _ => v0 | [] => true end;
     logFile := logFile c; enableCompress := enableCompress c;
     disableRedirect := disableRedirect c; client := client c |}.

Definition LogFile (f : string) (c : RequestBuilder) : RequestBuilder :=
  {| buildErr := buildErr c; header := header c;
     log := log c; logFile := f; enableCompress := enableCompress c;
     disableRedirect := disableRedirect c; client := client c |}.

(** A configuration call, and a chain of them applied in order. *)
Inductive ConfigCall : Type :=
| CallHeader (name value : string)
| CallWithProxy (proxyURL : string)
| CallWithClient (cl : option ClientPtr)
| CallCompressed
| CallDisableRedirect
| CallLog (v : list bool)
| CallLogFile (f : string).

Definition configure (k : ConfigCall) (c : RequestBuilder) (st : Store)
    : RequestBuilder * Store :=
  match k with
  | CallHeader n v => (Header n v c, st)
  | CallWithProxy u => WithProxy u c st
  | CallWithClient cl => (WithClient cl c, st)
  | CallCompressed => (Compressed c, st)
  | CallDisableRedirect => (DisableRedirect c, st)
  | CallLog v => (Log v c, st)
  | CallLogFile f => (LogFile f c, st)
  end.

Fixpoint configureAll (ks : list ConfigCall) (c : RequestBuilder) (st : Store)
    : RequestBuilder * Store :=
  match ks with
  | [] => (c, st)
  | k :: ks' => let (c', st') := configure k c st in configureAll ks' c' st'
  end.

(** ** The execution engine *)

(** The [data interface{}] of a POST: [nil], or a value of one of the three
    types the type switch singles out, or any other value. *)
Inductive Payload : Type :=
| PNil
| PBytes (data : list byte)
| PRawMessage (data : list byte)
| PString (data : string)
| POther (data : Value).

(** [gzipData]: [io.Copy] hands the whole in-memory reader to the writer in
    one [Write]; then [Flush], [Close], and the bytes of the buffer. *)
Definition gzipData (reader : list byte) : Result (list byte) :=
  match gz_Write gzip_NewWriter reader with
  | inl err => inl err
  | inr gz =>
    match gz_Flush gz with
    | inl err => inl err
    | inr gz =>
      match gz_Close gz with
      | inl err => inl err
      | inr gz => inr (gz_Bytes gz)
      end
    end
  end.

Definition containsQuote (s : string) : bool :=
  existsb (Ascii.eqb "'") (list_ascii_of_string s).

Definition quoteSh (s : string) : string :=
  if negb (containsQuote s) then "'" ++ s ++ "'" else strconv_Quote s.

(** [http.NewRequestWithContext] for the methods GET and POST: it refuses a
    nil context and a URL that does not parse; the new request has an empty
    header. *)
Definition NewRequestWithContext (ctx : option GoContext) (method url : string)
    (body : option (list byte)) : Result Request :=
  match ctx with
  | None => inl (LibError "net/http" "nil Context")
  | Some cx =>
    match url_Parse url with
    | inl err => inl err
    | inr u => inr {| Method := method; ReqURL := u; ReqHeader := ∅;
                      ReqBody := body; ReqCtx := cx |}
    end
  end.

Definition setReqHeader (r : Request) (h : http_Header) : Request :=
  {| Method := Method r; ReqURL := ReqURL r; ReqHeader := h;
     ReqBody := ReqBody r; ReqCtx := ReqCtx r |}.

(** The two nested loops that add every configured value to a header. Go
    ranges over a map in no fixed order; the model takes the map's listing. *)
Definition applyHeaders (configured target : http_Header) : http_Header :=
  foldl (fun acc kv => foldl (fun acc value => Header_Add acc (fst kv) value)
                             acc (snd kv))
        target (map_to_list configured).

Definition dquote : string := String "034"%char EmptyString.
Definition newline : string := String "010"%char EmptyString.

(** The words of the reproduction command. *)
Definition curlArgs (method : string) (h : http_Header)
    (logDataBytes : list byte) (logDataString url : string) : list string :=
  (["curl"; "-v"; "-X"; method]
   ++ flat_map (fun kv => flat_map (fun e =>
                   ["-H"; dquote ++ fst kv ++ ": " ++ e ++ dquote]%string)
                 (snd kv))
               (map_to_list h)
   ++ (if (0 <? length logDataBytes)%nat
       then ["--data-binary"; quoteSh (string_of_list_byte logDataBytes)]
       else if (0 <? String.length logDataString)%nat
       then ["--data-binary"; quoteSh logDataString]
       else [])
   ++ [quoteSh url])%list.

(** *** [http.Client.Do]

    [net/http] is not part of the package. What follows is the documented
    behaviour of its client, kept to what [request] depends on: the redirect
    status codes, the [CheckRedirect] hook with its default policy of ten
    hops, [ErrUseLastResponse], and the [*url.Error] around every error. *)

(** [redirectBehavior]: the status codes the client follows. A request built
    by [NewRequestWithContext] from an in-memory reader can be replayed, so
    307 and 308 are followed as well. *)
Definition shouldRedirect (code : Z) : bool :=
  ((code =? 301) || (code =? 302) || (code =? 303)
   || (code =? 307) || (code =? 308))%Z.

(** [redirectBehavior]: the method of the request that follows a redirect,
    and whether it carries the body again. *)
Definition redirectMethod (reqMethod : string) (code : Z) : string :=
  if ((code =? 301) || (code =? 302) || (code =? 303))%Z
  then if String.eqb reqMethod "GET" || String.eqb reqMethod "HEAD"
       then reqMethod else "GET"
  else reqMethod.

Definition includeBody (code : Z) : bool := ((code =? 307) || (code =? 308))%Z.

(** The request for the next hop: the location resolved against the URL of
    the latest request, the context of the first one. *)
Definition nextHop (ireq req : Request) (resp : Response) (loc : string)
    : Result Request :=
  match URL_Parse (ReqURL req) loc with
  | inl err => inl (ErrorfLocation loc err)
  | inr u =>
      inr {| Method := redirectMethod (Method req) (StatusCode resp);
             ReqURL := u;
             ReqHeader := redirectHeader (ReqHeader ireq) (ReqURL req) u;
             ReqBody := if includeBody (StatusCode resp)
                        then ReqBody ireq else None;
             ReqCtx := ReqCtx ireq |}
  end.

Definition defaultCheckRedirect (req : Request) (via : list Request)
    : option error :=
  if (10 <=? length via)%nat
  then Some (LibError "net/http" "stopped after 10 redirects")
  else None.

Definition checkRedirect (cl : Client) (req : Request) (via : list Request)
    : option error :=
  match CheckRedirect cl with
  | Some fn => fn req via
  | None => defaultCheckRedirect req via
  end.

(** [urlErrorOp]: the method with its first byte kept and the rest in lower
    case. *)
Definition urlErrorOp (method : string) : string :=
  match method with
  | EmptyString => "Get"
  | String c rest => String c (foldCase rest)
  end.

Definition uerr (ireq req : Request) (err : error) : error :=
  UrlError (urlErrorOp (Method ireq)) (stripPassword (ReqURL req)) err.

(** The client's loop: send the request; return the response unless it is a
    redirect with a location; otherwise build the next request, ask the
    redirect policy, and go round again. Each round trip takes the next
    exchange of the network. *)
Fixpoint doLoop (cl : Client) (down : error) (ireq : Request)
    (net : list Exchange) (req : Request) (via : list Request)
    : Result Response * list Exchange * list Event :=
  let ev := EvRoundTrip (Transport cl) req in
  match net with
  | [] => (inl (uerr ireq req down), [], [ev])
  | ex :: net' =>
    match ex (Transport cl) req with
    | inl err => (inl (uerr ireq req err), net', [ev])
    | inr resp =>
      if shouldRedirect (StatusCode resp) then
        let loc := Header_Get (RespHeader resp) "Location" in
        if isEmpty loc then (inr resp, net', [ev])
        else match nextHop ireq req resp loc with
        | inl err => (inl (uerr ireq req err), net', [ev])
        | inr req' =>
          match checkRedirect cl req' (via ++ [req]) with
          | Some ErrUseLastResponse => (inr resp, net', [ev])
          | Some err =>
              (inl (UrlError (urlErrorOp (Method ireq)) loc err), net', [ev])
          | None =>
              let '(r, net'', evs) :=
                doLoop cl down ireq net' req' (via ++ [req]) in
              (r, net'', ev :: evs)
          end
        end
      else (inr resp, net', [ev])
    end
  end.

Definition clientDo (p : ClientPtr) (req : Request) : M Response :=
  fun s =>
    let '(r, net', evs) :=
      doLoop (deref (store s) p) (netDown (world s)) req
             (network (world s)) req [] in
    (r, {| world := {| network := net'; netDown := netDown (world s);
                       WriteFile := WriteFile (world s) |};
           store := store s; trace := trace s ++ evs |}).

(** [&cloneClient]: the copy lives in a fresh client object. *)
Definition newClient (cl : Client) : M ClientPtr :=
  fun s => let (p, st') := new (store s) cl in
           (inr p, {| world := world s; store := st'; trace := trace s |}).

Definition readStore : M Store := fun s => (inr (store s), s).

Definition writeFile (name : string) (data : list byte) (perm : Z) : M unit :=
  fun s => (match WriteFile (world s) name data perm with
            | Some err => inl err
            | None => inr tt
            end, emitted (EvWriteFile name data perm) s).

(** *** [request] *)

(** The locals of [request] that the payload stage leaves behind. *)
Record Encoded : Type := mkEncoded {
  bodyReader : option (list byte);
  logDataBytes : list byte;
  logDataString : string;
  gzipped : bool;
}.

(** Lines 110-146: the type switch on the payload and the optional
    compression. Only a POST with a non-nil payload has a body. *)
Definition encodeBody (c : RequestBuilder) (post : bool) (data : Payload)
    : Result Encoded :=
  let noBody := {| bodyReader := None; logDataBytes := [];
                   logDataString := EmptyString; gzipped := false |} in
  if post then
    match data with
    | PNil => inr noBody
    | _ =>
      match
        match data with
        | PNil => inr noBody
        | PBytes data =>
            inr {| bodyReader := Some data; logDataBytes := data;
                   logDataString := EmptyString; gzipped := false |}
        | PRawMessage data =>
            inr {| bodyReader := Some data; logDataBytes := data;
                   logDataString := EmptyString; gzipped := false |}
        | PString data =>
            inr {| bodyReader := Some (list_byte_of_string data);
                   logDataBytes := []; logDataString := data;
                   gzipped := false |}
        | POther data =>
            match json_Marshal data with
            | inl err => inl err
            | inr dataBytes =>
                inr {| bodyReader := Some dataBytes; logDataBytes := dataBytes;
                       logDataString := EmptyString; gzipped := false |}
            end
        end
      with
      | inl err => inl err
      | inr enc =>
        match bodyReader enc with
        | Some reader =>
          if enableCompress c then
            match gzipData reader with
            | inl gzErr => inl (ErrorfCompress gzErr)
            | inr gzipData =>
                inr {| bodyReader := Some gzipData;
                       logDataBytes := logDataBytes enc;
                       logDataString := logDataString enc; gzipped := true |}
            end
          else inr enc
        | None => inr enc
        end
      end
    end
  else inr noBody.

(** The rendered command line of lines 162-176. *)
Definition cmdLog (method : string) (httpReq : Request) (enc : Encoded)
    (url : string) : string :=
  String.concat " " (curlArgs method (ReqHeader httpReq) (logDataBytes enc)
                              (logDataString enc) url).

(** Lines 177-185: the log file first, then the diagnostic stream. *)
Definition logCommand (c : RequestBuilder) (method : string)
    (httpReq : Request) (enc : Encoded) (url : string) : M unit :=
  let line := cmdLog method httpReq enc url in
  do _ <- when (negb (isEmpty (logFile c)))
            (wrapErr ErrorfLog
               (writeFile (logFile c) (list_byte_of_string line) 493)) ;;
  when (log c) (emit (EvStderr ("HTTP DEBUG: " ++ line ++ newline))).

(** Lines 148-160: the request with the configured headers and, for a POST,
    the JSON content type. *)
Definition buildRequest (c : RequestBuilder) (ctx : option GoContext)
    (method url : string) (jsonContent : bool) (enc : Encoded)
    : Result Request :=
  match NewRequestWithContext ctx method url (bodyReader enc) with
  | inl err => inl err
  | inr httpReq =>
    let httpReq :=
      setReqHeader httpReq (applyHeaders (header c) (ReqHeader httpReq)) in
    inr (if jsonContent
         then setReqHeader httpReq
                (Header_Set (ReqHeader httpReq) "Content-Type" "application/json")
         else httpReq)
  end.

(** Lines 187-189. *)
Definition markEncoding (enc : Encoded) (httpReq : Request) : Request :=
  if gzipped enc
  then setReqHeader httpReq (Header_Set (ReqHeader httpReq) "Content-Encoding" "gzip")
  else httpReq.

(** Lines 190-200: the client to use, copied when redirects are disabled. *)
Definition resolveClient (c : RequestBuilder) : M ClientPtr :=
  let client := match client c with Some p => p | None => DefaultClient end in
  if disableRedirect c then
    do st <- readStore ;;
    newClient (setCheckRedirect (deref st client)
                                (Some (fun _ _ => Some ErrRedirect)))
  else ret client.

(** Lines 205-221: read or discard the body, classify the status, and close
    the body on the way out. *)
Definition readResponse (httpResp : Response) (needData : bool)
    : M (list byte) :=
  defer (emitted EvBodyClose)
    (do body <- (if needData
                 then (do _ <- emit EvReadAll ;;
                       match RespBodyErr httpResp with
                       | Some err => fail err
                       | None => ret (RespBody httpResp)
                       end)
                 else (do _ <- emit EvDiscard ;; ret [])) ;;
     if (300 <=? StatusCode httpResp)%Z
     then fail (ErrorfResponse (StatusCode httpResp) (Status httpResp)
                               (string_of_list_byte body))
     else ret body).

(** Lines 101-204: everything up to and including [client.Do]. *)
Definition exchange (c : RequestBuilder) (ctx : option GoContext)
    (url : string) (post : bool) (data : Payload) : M Response :=
  match buildErr c with
  | Some err => fail err
  | None =>
    let needLog := log c || negb (isEmpty (logFile c)) in
    let jsonContent := post in
    let method := if post then "POST" else "GET" in
    do enc <- lift (encodeBody c post data) ;;
    do httpReq <- lift (buildRequest c ctx method url jsonContent enc) ;;
    do _ <- when needLog (logCommand c method httpReq enc url) ;;
    let httpReq := markEncoding enc httpReq in
    do client <- resolveClient c ;;
    clientDo client httpReq
  end.

Definition request (c : RequestBuilder) (ctx : option GoContext)
    (url : string) (post : bool) (data : Payload) (needData : bool)
    : M (list byte) :=
  do httpResp <- exchange c ctx url post data ;;
  readResponse httpResp needData.

(** ** The terminal operations *)

(** The [res interface{}] of a terminal call together with what it points
    to: [nil], a [*PlainHtml] and the string it holds, or anything else. *)
Inductive Target : Type :=
| TNil
| TPlainHtml (held : string)
| TOther (d : Dest).

Definition isNil (res : Target) : bool :=
  match res with TNil => true | _ => false end.

Definition isPlainHtml (res : Target) : bool :=
  match res with TPlainHtml _ => true | _ => false end.

(** [unmarshalSafeNumber] decodes into [&res]: into what [res] points to, or
    into the local copy of a nil interface. *)
Definition unmarshalSafeNumber (body : list byte) (res : Target)
    : option error * Target :=
  match res with
  | TNil => (json_DecodeAny body, TNil)
  | TPlainHtml held =>
      let (err, held') := json_DecodePlainHtml body held in
      (err, TPlainHtml held')
  | TOther d =>
      let (err, d') := json_Decode body d in (err, TOther d')
  end.

(** A terminal call returns its error and leaves the target as described. *)
Definition Terminal : Type := State -> (option error * Target) * State.

Definition PostJSON (c : RequestBuilder) (ctx : option GoContext)
    (url : string) (data : Payload) (res : Target) : Terminal :=
  fun s =>
    match request c ctx url true data (negb (isNil res)) s with
    | (inl err, s') => ((Some err, res), s')
    | (inr body, s') =>
      if isNil res || (length body =? 0)%nat then ((None, res), s')
      else match res with
           | TPlainHtml _ => ((None, TPlainHtml (string_of_list_byte body)), s')
           | _ => (unmarshalSafeNumber body res, s')
           end
    end.

Definition Get (c : RequestBuilder) (ctx : option GoContext)
    (url : string) (res : Target) : Terminal :=
  fun s =>
    match request c ctx url false PNil (negb (isNil res)) s with
    | (inl err, s') => ((Some err, res), s')
    | (inr body, s') =>
      if isNil res || (length body =? 0)%nat then ((None, res), s')
      else match res with
           | TPlainHtml _ => ((None, TPlainHtml (string_of_list_byte body)), s')
           | _ => (unmarshalSafeNumber body res, s')
           end
    end.

(** The pair of src/request.go. *)
Definition request_go_PostJSON (c : RequestBuilder) (ctx : option GoContext)
    (url : string) (data : Payload) (res : Target) : Terminal :=
  fun s =>
    match request c ctx url true data (negb (isNil res)) s with
    | (inl err, s') => ((Some err, res), s')
    | (inr body, s') =>
      if isNil res || (length body =? 0)%nat then ((None, res), s')
      else (unmarshalSafeNumber body res, s')
    end.

Definition request_go_Get (c : RequestBuilder) (ctx : option GoContext)
    (url : string) (res : Target) : Terminal :=
  fun s =>
    match request c ctx url false PNil (negb (isNil res)) s with
    | (inl err, s') => ((Some err, res), s')
    | (inr body, s') =>
      if isNil res || (length body =? 0)%nat then ((None, res), s')
      else (unmarshalSafeNumber body res, s')
    end.

(** ** Observing an execution *)

(** The events an execution added to the trace. *)
Definition newEvents (s s' : State) : list Event :=
  drop (length (trace s)) (trace s').

(** The round trips among some events, in order. *)
Definition roundTrips (evs : list Event)
    : list (option RoundTripper * Request) :=
  flat_map (fun e => match e with
                     | EvRoundTrip t r => [(t, r)]
                     | _ => []
                     end) evs.

(** Everything written as a log: the content of each file write and each
    line of the diagnostic stream. *)
Definition logged (evs : list Event) : list string :=
  flat_map (fun e => match e with
                     | EvWriteFile _ data _ => [string_of_list_byte data]
                     | EvStderr line => [line]
                     | _ => []
                     end) evs.

(** The bytes a non-nil payload stands for before any compression, in the
    words of the specification: bytes, pre-serialized JSON and text as they
    are, any other value through [json.Marshal]. *)
Definition serializedPayload (data : Payload) : option (Result (list byte)) :=
  match data with
  | PNil => None
  | PBytes d => Some (inr d)
  | PRawMessage d => Some (inr d)
  | PString d => Some (inr (list_byte_of_string d))
  | POther v => Some (json_Marshal v)
  end.

(** The header of a request before the content-encoding marker: the
    configured headers and, for a POST, the JSON content type. *)
Definition baseHeader (c : RequestBuilder) (post : bool) : http_Header :=
  let h := applyHeaders (header c) ∅ in
  if post then Header_Set h "Content-Type" "application/json" else h.

End HttpRequest.

(** ** A concrete setting

    A small instance of the collaborators, used to run the definitions on
    examples: URLs are strings and one without a scheme does not parse, a
    payload value may or may not be serializable, and the gzip writer puts
    the two magic bytes in front of what it is given. *)

Definition demoParse (s : string) : Result string :=
  match s with
  | String ":" _ => inl (LibError "net/url" "missing protocol scheme")
  | _ => inr s
  end.

Definition demo : Collaborators := {|
  GoContext := unit;
  URL := string;
  url_Parse := demoParse;
  URL_Parse := fun _ ref => demoParse ref;
  stripPassword := fun u => u;
  redirectHeader := fun h _ _ => h;
  Value := option (list byte);
  json_Marshal := fun v =>
    match v with
    | Some b => inr b
    | None => inl (LibError "encoding/json" "unsupported type")
    end;
  Dest := list byte;
  json_Decode := fun body _ => (None, body);
  json_DecodePlainHtml := fun body held =>
    (Some (LibError "encoding/json" "cannot unmarshal"), held);
  json_DecodeAny := fun _ => None;
  GzWriter := list byte;
  gzip_NewWriter := [x1f; x8b];
  gz_Write := fun w d => inr (w ++ d)%list;
  gz_Flush := fun w => inr w;
  gz_Close := fun w => inr w;
  gz_Bytes := fun w => w;
  strconv_Quote := fun s => (String "034"%char s ++ String "034"%char EmptyString)%string;
|}.

Definition demoStore : @Store demo :=
  {| defaultClient := zeroClient; cells := [] |}.

Definition bytes (s : string) : list byte := list_byte_of_string s.

Definition demoResponse (code : Z) (status body : string) (loc : string)
    : @Response :=
  {| StatusCode := code; Status := status;
     RespHeader := if isEmpty loc then ∅ else Header_Set ∅ "Location" loc;
     RespBody := bytes body; RespBodyErr := None |}.

(** A network that answers every request with the same response. *)
Definition demoWorld (n : nat) (resp : Response)
    (wf : string -> list byte -> Z -> option error) : @World demo :=
  {| network := repeat (fun _ _ => inr resp) n;
     netDown := LibError "net" "connection refused";
     WriteFile := wf |}.

Definition demoState (w : @World demo) : @State demo :=
  {| world := w; store := demoStore; trace := [] |}.

(** [context.Background()]. *)
Definition background : option (@GoContext demo) := Some tt.

(** A target that is not a [*PlainHtml]. *)
Definition decodeTarget : @Target demo := @TOther demo (bytes "old").

(** A builder poisoned by a proxy URL that does not parse. *)
Definition poisoned : RequestBuilder :=
  fst (@WithProxy demo "://proxy" New demoStore).

Definition allWritesSucceed : string -> list byte -> Z -> option error :=
  fun _ _ _ => None.

Definition allWritesFail : string -> list byte -> Z -> option error :=
  fun _ _ _ => Some (LibError "os" "permission denied").

(** A server that answers 404 with a body, one that answers 200, and one
    that redirects. *)
Definition notFound : @State demo :=
  demoState (demoWorld 1 (demoResponse 404 "404 Not Found" "not found"
                                       EmptyString) allWritesSucceed).

Definition okHello : @State demo :=
  demoState (demoWorld 1 (demoResponse 200 "200 OK" "hello" EmptyString)
                       allWritesSucceed).

Definition movedAway : @State demo :=
  demoState (demoWorld 2 (demoResponse 302 "302 Found" EmptyString
                                       "http://other/") allWritesSucceed).

Definition readOnlyDisk : @State demo :=
  demoState (demoWorld 1 (demoResponse 200 "200 OK" "hello" EmptyString)
                       allWritesFail).

(** A server whose 200 response has a body that cannot be read to its
    end. *)
Definition brokenResponse : @Response :=
  {| StatusCode := 200; Status := "200 OK"; RespHeader := ∅;
     RespBody := []; RespBodyErr := Some (LibError "io" "unexpected EOF") |}.

Definition brokenBody : @State demo :=
  demoState (demoWorld 1 brokenResponse allWritesSucceed).

(** The state after a proxy has been configured on a new builder. *)
Definition proxiedState : @State demo :=
  {| world := demoWorld 1 (demoResponse 200 "200 OK" "hello" EmptyString)
                        allWritesSucceed;
     store := snd (@WithProxy demo "http://proxy:3128" New demoStore);
     trace := [] |}.

(** ** Properties of header names *)

Lemma toUpper_toLower (c : ascii) : toUpper (toLower c) = toUpper c.
Proof. destruct c as [[] [] [] [] [] [] [] []]; reflexivity. Qed.

Lemma validHeaderFieldByte_toLower (c : ascii) :
  validHeaderFieldByte (toLower c) = validHeaderFieldByte c.
Proof. destruct c as [[] [] [] [] [] [] [] []]; reflexivity. Qed.

Lemma canonLoop_foldCase (a : string) :
  forall (b : string) (upper : bool),
    foldCase a = foldCase b -> canonLoop upper a = canonLoop upper b.
Proof.
  induction a as [|x a IH]; intros [|y b] upper Hfold; simpl in *;
    try discriminate; [reflexivity|].
  injection Hfold as Hxy Hab.
  assert (Hc : (if upper then toUpper x else toLower x)
               = (if upper then toUpper y else toLower y)).
  { destruct upper; [|exact Hxy].
    rewrite <- (toUpper_toLower x), <- (toUpper_toLower y), Hxy. reflexivity. }
  rewrite Hc. f_equal. apply IH, Hab.
Qed.

Lemma validHeaderName_foldCase (a : string) :
  forall b : string,
    foldCase a = foldCase b -> validHeaderName a = validHeaderName b.
Proof.
  induction a as [|x a IH]; intros [|y b] Hfold; simpl in *;
    try discriminate; [reflexivity|].
  injection Hfold as Hxy Hab.
  rewrite <- (validHeaderFieldByte_toLower x), Hxy,
    validHeaderFieldByte_toLower.
  f_equal. apply IH, Hab.
Qed.

Lemma canonical_EqualFold (a b : string) :
  EqualFold a b -> validHeaderName a = true ->
  CanonicalMIMEHeaderKey a = CanonicalMIMEHeaderKey b.
Proof.
  unfold EqualFold, CanonicalMIMEHeaderKey. intros Hfold Hvalid.
  rewrite <- (validHeaderName_foldCase a b Hfold), Hvalid.
  apply canonLoop_foldCase, Hfold.
Qed.

Lemma Header_Values_Set (h : http_Header) (key value : string) :
  Header_Values (Header_Set h key value) key = [value].
Proof. unfold Header_Values, Header_Set. rewrite lookup_insert_eq. reflexivity. Qed.

(** C9, as the code has it. Two [Header] calls whose names are the same, or
    differ only in case and consist of token characters, leave the builder
    with exactly the value of the second call: the headers are those of the
    second call alone, and both names read that value. (A name with a space
    or another non-token byte is stored and compared exactly as written.) *)
Theorem Header_twice_latest (c : RequestBuilder) (n1 n2 v1 v2 : string) :
  n1 = n2 \/ (EqualFold n1 n2 /\ validHeaderName n1 = true) ->
  header (Header n2 v2 (Header n1 v1 c)) = header (Header n2 v2 c)
  /\ Header_Values (header (Header n2 v2 (Header n1 v1 c))) n1 = [v2]
  /\ Header_Values (header (Header n2 v2 (Header n1 v1 c))) n2 = [v2].
Proof.
  intros Hn.
  assert (Hk : CanonicalMIMEHeaderKey n1 = CanonicalMIMEHeaderKey n2).
  { destruct Hn as [->|[Hfold Hvalid]]; [reflexivity|].
    apply canonical_EqualFold; assumption. }
  simpl. unfold Header_Set, Header_Values. rewrite Hk.
  rewrite insert_insert_eq, lookup_insert_eq. auto.
Qed.

Lemma Header_twice_latest_witness :
  header (Header "CONTENT-type" "b" (Header "content-Type" "a" New))
    = header (Header "CONTENT-type" "b" New)
  /\ Header_Values (header (Header "CONTENT-type" "b"
                              (Header "content-Type" "a" New)))
       "content-Type" = ["b"]
  /\ Header_Values (header (Header "CONTENT-type" "b"
                              (Header "content-Type" "a" New)))
       "CONTENT-type" = ["b"].
Proof.
  apply (Header_twice_latest New "content-Type" "CONTENT-type" "a" "b").
  right. split; reflexivity.
Defined.

(** C9 fails as stated: the names [a b] and [A b] are equal up to case, yet
    after setting one and then the other the builder holds both values, and
    the first name still reads the first value; and after setting [a b]
    twice, the name [A b] reads nothing. *)
Lemma Header_case_counterexample :
  EqualFold "a b" "A b"
  /\ header (Header "A b" "2" (Header "a b" "1" New)) !! "a b" = Some ["1"]
  /\ header (Header "A b" "2" (Header "a b" "1" New)) !! "A b" = Some ["2"]
  /\ Header_Values (header (Header "A b" "2" (Header "a b" "1" New))) "a b"
     <> ["2"]
  /\ Header_Values (header (Header "a b" "2" (Header "a b" "1" New))) "A b"
     = [].
Proof. repeat split; try reflexivity. vm_compute. discriminate. Qed.

(** ** Properties of the builder and of the terminal operations *)

Section Properties.

Context `{Collaborators}.

Lemma WithProxy_poisoned (u : string) (c : RequestBuilder) (st : Store)
    (e : error) :
  buildErr c = Some e -> WithProxy u c st = (c, st).
Proof. intros He. unfold WithProxy. rewrite He. destruct (isEmpty u); reflexivity. Qed.

Lemma configure_poisoned (k : ConfigCall) (c : RequestBuilder) (st : Store)
    (e : error) :
  buildErr c = Some e ->
  buildErr (fst (configure k c st)) = Some e /\ snd (configure k c st) = st.
Proof.
  intros He. destruct k; simpl; auto.
  rewrite (WithProxy_poisoned _ _ _ _ He). auto.
Qed.

Lemma configureAll_poisoned (ks : list ConfigCall) :
  forall (c : RequestBuilder) (st : Store) (e : error),
    buildErr c = Some e ->
    buildErr (fst (configureAll ks c st)) = Some e
    /\ snd (configureAll ks c st) = st.
Proof.
  induction ks as [|k ks IH]; intros c st e He; simpl; [auto|].
  destruct (configure_poisoned k c st e He) as [Hb Hs].
  destruct (configure k c st) as [c' st']. simpl in Hb, Hs. subst st'.
  apply IH, Hb.
Qed.

Lemma request_poisoned (c : RequestBuilder) (e : error)
    (ctx : option GoContext) (url : string) (post : bool) (data : Payload)
    (needData : bool) (s : State) :
  buildErr c = Some e -> request c ctx url post data needData s = (inl e, s).
Proof. intros He. unfold request, exchange, bind. rewrite He. reflexivity. Qed.

(** C1, as the code has it. Once [buildErr] is set, no chain of configuration
    calls clears or replaces it and none touches the client store; a further
    [WithProxy] is a no-op; and every later execution ([request], [Get],
    [PostJSON]) returns that same error and leaves the state as it was: no
    log output, no network activity. *)
Theorem buildErr_sticky (ks : list ConfigCall) (c : RequestBuilder)
    (st : Store) (e : error) :
  buildErr c = Some e ->
  (forall u, WithProxy u c st = (c, st))
  /\ buildErr (fst (configureAll ks c st)) = Some e
  /\ snd (configureAll ks c st) = st
  /\ (forall ctx url post data needData s,
        request (fst (configureAll ks c st)) ctx url post data needData s
        = (inl e, s))
  /\ (forall ctx url res s,
        Get (fst (configureAll ks c st)) ctx url res s = ((Some e, res), s))
  /\ (forall ctx url data res s,
        PostJSON (fst (configureAll ks c st)) ctx url data res s
        = ((Some e, res), s)).
Proof.
  intros He.
  destruct (configureAll_poisoned ks c st e He) as [Hb Hs].
  split; [intros u; apply (WithProxy_poisoned u c st e He)|].
  repeat split; try assumption; intros.
  - apply request_poisoned, Hb.
  - unfold Get. rewrite (request_poisoned _ e) by exact Hb. reflexivity.
  - unfold PostJSON. rewrite (request_poisoned _ e) by exact Hb. reflexivity.
Qed.

Lemma new_deref (st : Store) (cl : Client) :
  deref (snd (new st cl)) (fst (new st cl)) = cl.
Proof.
  unfold new, deref. simpl.
  rewrite lookup_app_r by lia. rewrite Nat.sub_diag. reflexivity.
Qed.

Lemma new_frame (st : Store) (cl : Client) (p : ClientPtr) :
  allocated st p -> deref (snd (new st cl)) p = deref st p.
Proof.
  destruct p as [|a]; simpl; [reflexivity|]. intros Ha.
  rewrite lookup_app_l by exact Ha. reflexivity.
Qed.

Lemma WithProxy_frame (proxyURL : string) (c : RequestBuilder) (st : Store)
    (p : ClientPtr) :
  allocated st p -> deref (snd (WithProxy proxyURL c st)) p = deref st p.
Proof.
  intros Hp. unfold WithProxy.
  destruct (isEmpty proxyURL); [reflexivity|].
  destruct (buildErr c); [reflexivity|].
  destruct (url_Parse proxyURL) as [err|u]; [reflexivity|].
  destruct (client c) as [p0|]; apply new_frame, Hp.
Qed.

(** C7. An empty proxy URL leaves builder and store as they are. Whatever
    the URL, every client object that existed before the call reads as
    before after it. A non-empty URL that parses, on a builder without a
    build error, makes the builder point to a client object that did not
    exist before: the zero client (when none was configured) or a copy of
    the configured one, with the proxy transport as its [Transport]; no
    other builder field changes. *)
Theorem WithProxy_clones (c : RequestBuilder) (st : Store) :
  WithProxy EmptyString c st = (c, st)
  /\ (forall proxyURL p,
        allocated st p ->
        deref (snd (WithProxy proxyURL c st)) p = deref st p)
  /\ forall (proxyURL : string) (u : URL),
       isEmpty proxyURL = false -> buildErr c = None ->
       url_Parse proxyURL = inr u ->
       let original := match client c with
                       | Some p0 => deref st p0
                       | None => zeroClient
                       end in
       let p' := ClientAt (length (cells st)) in
       let st' := snd (WithProxy proxyURL c st) in
       fst (WithProxy proxyURL c st) = setClient c (Some p')
       /\ ~ allocated st p' /\ allocated st' p'
       /\ deref st' p' = setTransport original (Some (HttpTransport (Some u))).
Proof.
  split; [reflexivity|]. split; [intros; apply WithProxy_frame; assumption|].
  intros proxyURL u Hne Herr Hparse. unfold WithProxy.
  rewrite Hne, Herr, Hparse.
  destruct (client c) as [p0|]; simpl;
    (split; [reflexivity|]);
    (split; [unfold allocated; lia|]);
    (split; [unfold allocated; simpl; rewrite length_app; simpl; lia|]);
    rewrite lookup_app_r by lia; rewrite Nat.sub_diag; reflexivity.
Qed.

(** C8. When the request succeeds, [PostJSON] and [Get] return no error and
    leave the target alone if the target is nil or the body is empty; with a
    non-empty body a [*PlainHtml] target receives the body, converted to a
    string byte for byte, whatever the JSON decoder would have done. *)
Theorem terminal_skip_and_plain (c : RequestBuilder) (ctx : option GoContext)
    (url : string) (res : Target) (s : State) :
  (forall data body s',
     request c ctx url true data (negb (isNil res)) s = (inr body, s') ->
     (isNil res = true \/ body = [] ->
        PostJSON c ctx url data res s = ((None, res), s'))
     /\ (isPlainHtml res = true -> body <> [] ->
         PostJSON c ctx url data res s
         = ((None, TPlainHtml (string_of_list_byte body)), s')))
  /\ (forall body s',
       request c ctx url false PNil (negb (isNil res)) s = (inr body, s') ->
       (isNil res = true \/ body = [] ->
          Get c ctx url res s = ((None, res), s'))
       /\ (isPlainHtml res = true -> body <> [] ->
           Get c ctx url res s
           = ((None, TPlainHtml (string_of_list_byte body)), s'))).
Proof.
  split; [intros data body s' Hreq|intros body s' Hreq];
    unfold PostJSON, Get; rewrite Hreq; (split; [intros Hskip|intros Hplain Hbody]).
  - replace (isNil res || (length body =? 0)%nat) with true; [reflexivity|].
    destruct Hskip as [->| ->]; [reflexivity|]. symmetry. apply orb_true_r.
  - destruct res as [|held|d]; try discriminate.
    destruct body as [|b body]; [congruence|reflexivity].
  - replace (isNil res || (length body =? 0)%nat) with true; [reflexivity|].
    destruct Hskip as [->| ->]; [reflexivity|]. symmetry. apply orb_true_r.
  - destruct res as [|held|d]; try discriminate.
    destruct body as [|b body]; [congruence|reflexivity].
Qed.

(** C10. The [Get] and [PostJSON] of src/request.go return the same error,
    leave the same target and the same state as the later pair, for every
    builder, context, URL, payload and state, when the target is not a
    [*PlainHtml]. *)
Theorem request_go_agrees (c : RequestBuilder) (ctx : option GoContext)
    (url : string) (data : Payload) (res : Target) (s : State) :
  isPlainHtml res = false ->
  request_go_PostJSON c ctx url data res s = PostJSON c ctx url data res s
  /\ request_go_Get c ctx url res s = Get c ctx url res s.
Proof.
  intros Hres. unfold request_go_PostJSON, PostJSON, request_go_Get, Get.
  destruct res as [|held|d]; try discriminate; split; reflexivity.
Qed.

(** ** The shape of an execution *)

Ltac run_tail :=
  repeat (simpl; unfold emitted; simpl; rewrite ?app_nil_r, <- ?app_assoc).

(** [request] on a builder without a build error, stage by stage: what it
    returns, the world and the store it leaves, and the events it adds. *)
Lemma request_run (c : RequestBuilder) (ctx : option GoContext)
    (url : string) (post : bool) (data : Payload) (needData : bool)
    (s : State) :
  buildErr c = None ->
  request c ctx url post data needData s =
  match encodeBody c post data with
  | inl err => (inl err, s)
  | inr enc =>
    match buildRequest c ctx (if post then "POST" else "GET") url post enc with
    | inl err => (inl err, s)
    | inr httpReq =>
      let line := cmdLog (if post then "POST" else "GET") httpReq enc url in
      let toFile := negb (isEmpty (logFile c)) in
      let fileEvs :=
        if toFile
        then [EvWriteFile (logFile c) (list_byte_of_string line) 493]
        else [] in
      let errEvs :=
        if log c then [EvStderr ("HTTP DEBUG: " ++ line ++ newline)] else [] in
      match (if toFile
             then WriteFile (world s) (logFile c) (list_byte_of_string line) 493
             else None) with
      | Some err =>
          (inl (ErrorfLog err),
           {| world := world s; store := store s;
              trace := trace s ++ fileEvs |})
      | None =>
        let p0 := match client c with Some p => p | None => DefaultClient end in
        let pst :=
          if disableRedirect c
          then new (store s)
                   (setCheckRedirect (deref (store s) p0)
                                     (Some (fun _ _ => Some ErrRedirect)))
          else (p0, store s) in
        let req := markEncoding enc httpReq in
        let '(r, net', evs) :=
          doLoop (deref (snd pst) (fst pst)) (netDown (world s)) req
                 (network (world s)) req [] in
        let w' := {| network := net'; netDown := netDown (world s);
                     WriteFile := WriteFile (world s) |} in
        match r with
        | inl err =>
            (inl err,
             {| world := w'; store := snd pst;
                trace := trace s ++ fileEvs ++ errEvs ++ evs |})
        | inr resp =>
          match (if needData then RespBodyErr resp else None) with
          | Some err =>
              (inl err,
               {| world := w'; store := snd pst;
                  trace := trace s ++ fileEvs ++ errEvs ++ evs
                           ++ [EvReadAll; EvBodyClose] |})
          | None =>
              let body := if needData then RespBody resp else [] in
              (if (300 <=? StatusCode resp)%Z
               then inl (ErrorfResponse (StatusCode resp) (Status resp)
                                        (string_of_list_byte body))
               else inr body,
               {| world := w'; store := snd pst;
                  trace := trace s ++ fileEvs ++ errEvs ++ evs
                           ++ [if needData then EvReadAll else EvDiscard;
                               EvBodyClose] |})
          end
        end
      end
    end
  end.
Proof.
  intros Herr. unfold request, exchange. rewrite Herr.
  unfold bind at 1 2. unfold lift at 1.
  destruct (encodeBody c post data) as [err|enc]; [reflexivity|].
  unfold bind at 1. unfold lift at 1.
  destruct (buildRequest c ctx _ url post enc) as [err|httpReq]; [reflexivity|].
  cbv zeta.
  set (line := cmdLog _ httpReq enc url).
  unfold logCommand, resolveClient, readResponse.
  fold line.
  destruct (log c) eqn:Hlog; destruct (isEmpty (logFile c)) eqn:Hfile;
    unfold when, clientDo, newClient, readStore, writeFile, wrapErr, defer,
      emit, fail, ret, bind; simpl;
    try (destruct (WriteFile (world s) (logFile c) (list_byte_of_string line) 493);
         simpl; [reflexivity|]);
    destruct (disableRedirect c); simpl;
    destruct (doLoop _ _ _ _ _ _) as [[[err|resp] net'] evs];
    run_tail; try reflexivity;
    destruct needData; run_tail;
    try destruct (RespBodyErr resp); run_tail;
    try destruct (300 <=? StatusCode resp)%Z; run_tail; reflexivity.
Qed.

(** *** The client's loop *)

Lemma doLoop_first (cl : Client) (down : error) (ireq : Request)
    (net : list Exchange) (req : Request) (via : list Request) :
  exists rest,
    snd (doLoop cl down ireq net req via)
    = EvRoundTrip (Transport cl) req :: rest.
Proof.
  destruct net as [|ex net]; simpl; [eauto|].
  destruct (ex (Transport cl) req) as [err|resp]; [eauto|].
  destruct (shouldRedirect (StatusCode resp)); [|eauto].
  destruct (isEmpty _); [eauto|].
  destruct (nextHop ireq req resp _) as [err|req']; [eauto|].
  destruct (checkRedirect cl req' (via ++ [req])%list) as [[]|]; eauto.
  destruct (doLoop cl down ireq net req' (via ++ [req])%list) as [[r net''] evs].
  eauto.
Qed.

Lemma doLoop_only_trips (cl : Client) (down : error) (ireq : Request)
    (net : list Exchange) :
  forall (req : Request) (via : list Request),
    logged (snd (doLoop cl down ireq net req via)) = [].
Proof.
  induction net as [|ex net IH]; intros req via; simpl; [reflexivity|].
  destruct (ex (Transport cl) req) as [err|resp]; [reflexivity|].
  destruct (shouldRedirect (StatusCode resp)); [|reflexivity].
  destruct (isEmpty _); [reflexivity|].
  destruct (nextHop ireq req resp _) as [err|req']; [reflexivity|].
  destruct (checkRedirect cl req' (via ++ [req])%list) as [[]|]; try reflexivity.
  specialize (IH req' (via ++ [req])%list).
  destruct (doLoop cl down ireq net req' (via ++ [req])%list) as [[r net''] evs].
  exact IH.
Qed.

(** A request without a body is followed by requests without a body. *)
Lemma doLoop_no_body (cl : Client) (down : error) (ireq : Request)
    (net : list Exchange) :
  ReqBody ireq = None ->
  forall (req : Request) (via : list Request),
    ReqBody req = None ->
    forall t q,
      In (t, q) (roundTrips (snd (doLoop cl down ireq net req via))) ->
      ReqBody q = None.
Proof.
  intros Hireq.
  assert (Hone : forall (req : Request) t q,
             ReqBody req = None ->
             In (t, q) (roundTrips [EvRoundTrip (Transport cl) req]) ->
             ReqBody q = None).
  { intros req t q Hreq [Heq|[]]. congruence. }
  induction net as [|ex net IH]; intros req via Hreq t q; simpl;
    [apply Hone, Hreq|].
  destruct (ex (Transport cl) req) as [err|resp]; [apply Hone, Hreq|].
  destruct (shouldRedirect (StatusCode resp)); [|apply Hone, Hreq].
  destruct (isEmpty _); [apply Hone, Hreq|].
  destruct (nextHop ireq req resp _) as [err|req'] eqn:Hhop; [apply Hone, Hreq|].
  destruct (checkRedirect cl req' (via ++ [req])%list) as [[]|];
    try (apply Hone, Hreq).
  assert (Hreq' : ReqBody req' = None).
  { unfold nextHop in Hhop. destruct (URL_Parse _ _); [discriminate|].
    injection Hhop as <-. simpl. rewrite Hireq. destruct (includeBody _); reflexivity. }
  specialize (IH req' (via ++ [req])%list Hreq' t q).
  destruct (doLoop cl down ireq net req' (via ++ [req])%list) as [[r net''] evs].
  simpl in *. intros [Heq|Hin]; [congruence|auto].
Qed.

(** A client whose redirect hook always answers [ErrRedirect] stops at the
    first redirect: one round trip, and the hook's error, wrapped. *)
Lemma doLoop_redirect_refused (cl : Client) (down : error) (ireq : Request)
    (ex : Exchange) (net : list Exchange) (req : Request)
    (via : list Request) (resp : Response) (u : URL) :
  CheckRedirect cl = Some (fun _ _ => Some ErrRedirect) ->
  ex (Transport cl) req = inr resp ->
  shouldRedirect (StatusCode resp) = true ->
  isEmpty (Header_Get (RespHeader resp) "Location") = false ->
  URL_Parse (ReqURL req) (Header_Get (RespHeader resp) "Location") = inr u ->
  doLoop cl down ireq (ex :: net) req via
  = (inl (UrlError (urlErrorOp (Method ireq))
                   (Header_Get (RespHeader resp) "Location") ErrRedirect),
     net, [EvRoundTrip (Transport cl) req]).
Proof.
  intros Hhook Hex Hcode Hloc Hparse. simpl.
  rewrite Hex, Hcode, Hloc. unfold nextHop, checkRedirect.
  rewrite Hparse, Hhook. reflexivity.
Qed.

(** *** The stages before the exchange *)

Lemma buildRequest_fields (c : RequestBuilder) (ctx : option GoContext)
    (method url : string) (post : bool) (enc : Encoded) (r : Request) :
  buildRequest c ctx method url post enc = inr r ->
  Method r = method /\ ReqHeader r = baseHeader c post
  /\ ReqBody r = bodyReader enc.
Proof.
  unfold buildRequest, NewRequestWithContext, baseHeader.
  destruct ctx as [cx|]; [|discriminate].
  destruct (url_Parse url) as [err|u]; [discriminate|].
  intros Hr. injection Hr as <-. destruct post; simpl; auto.
Qed.

Lemma markEncoding_fields (enc : Encoded) (r : Request) :
  ReqBody (markEncoding enc r) = ReqBody r
  /\ ReqHeader (markEncoding enc r)
     = if gzipped enc
       then Header_Set (ReqHeader r) "Content-Encoding" "gzip"
       else ReqHeader r.
Proof. unfold markEncoding. destruct (gzipped enc); simpl; auto. Qed.

Lemma curlArgs_string (method : string) (h : http_Header) (d url : string) :
  curlArgs method h [] d url
  = curlArgs method h (list_byte_of_string d) EmptyString url.
Proof.
  unfold curlArgs. destruct d as [|a d]; [reflexivity|].
  rewrite string_of_list_byte_of_string. reflexivity.
Qed.

(** What [encodeBody] leaves for a POST with a payload whose bytes are [b]:
    the body is [b], or its compression; the log is rendered from [b]. *)
Lemma encodeBody_post (c : RequestBuilder) (data : Payload) (b : list byte) :
  serializedPayload data = Some (inr b) ->
  (enableCompress c = false ->
     exists enc, encodeBody c true data = inr enc
       /\ bodyReader enc = Some b /\ gzipped enc = false
       /\ forall method h url,
            curlArgs method h (logDataBytes enc) (logDataString enc) url
            = curlArgs method h b EmptyString url)
  /\ (enableCompress c = true ->
      match gzipData b with
      | inl gzErr => encodeBody c true data = inl (ErrorfCompress gzErr)
      | inr z =>
        exists enc, encodeBody c true data = inr enc
          /\ bodyReader enc = Some z /\ gzipped enc = true
          /\ forall method h url,
               curlArgs method h (logDataBytes enc) (logDataString enc) url
               = curlArgs method h b EmptyString url
      end).
Proof.
  intros Hser. split; intros Hz; unfold encodeBody; rewrite Hz.
  - destruct data as [|d|d|d|v]; simpl in Hser; try discriminate;
      injection Hser as Hser; try rewrite Hser; try subst b; simpl;
      eexists; (split; [reflexivity|]); simpl;
      repeat split; auto using curlArgs_string.
  - destruct data as [|d|d|d|v]; simpl in Hser; try discriminate;
      injection Hser as Hser; try rewrite Hser; try subst b; simpl;
      (destruct (gzipData _) as [gzErr|z]; [reflexivity|]);
      eexists; (split; [reflexivity|]); simpl;
      repeat split; auto using curlArgs_string.
Qed.

Lemma roundTrips_app (a b : list Event) :
  roundTrips (a ++ b) = (roundTrips a ++ roundTrips b)%list.
Proof. apply flat_map_app. Qed.

Lemma logged_app (a b : list Event) :
  logged (a ++ b) = (logged a ++ logged b)%list.
Proof. apply flat_map_app. Qed.

Lemma newEvents_app (s : State) (w : World) (st : Store) (evs : list Event) :
  newEvents s {| world := w; store := st; trace := trace s ++ evs |} = evs.
Proof. unfold newEvents. simpl. apply drop_app_length. Qed.

Lemma newEvents_nil (s : State) : newEvents s s = [].
Proof. unfold newEvents. apply drop_all. Qed.

(** The events of an execution that got as far as building its request: log
    events first, each carrying the rendered command line, then network
    events, the first of which hands the built request to the transport. *)
Lemma request_events (c : RequestBuilder) (ctx : option GoContext)
    (url : string) (post : bool) (data : Payload) (needData : bool)
    (s : State) (enc : Encoded) (httpReq : Request) :
  buildErr c = None ->
  encodeBody c post data = inr enc ->
  buildRequest c ctx (if post then "POST" else "GET") url post enc
  = inr httpReq ->
  let line := cmdLog (if post then "POST" else "GET") httpReq enc url in
  exists logEvs netEvs,
    newEvents s (snd (request c ctx url post data needData s))
    = (logEvs ++ netEvs)%list
    /\ roundTrips logEvs = []
    /\ (forall l, In l (logged logEvs) ->
          l = line \/ l = "HTTP DEBUG: " ++ line ++ newline)
    /\ logged netEvs = []
    /\ (forall t q, head (roundTrips netEvs) = Some (t, q) ->
          q = markEncoding enc httpReq)
    /\ (ReqBody httpReq = None ->
        forall t q, In (t, q) (roundTrips netEvs) -> ReqBody q = None).
Proof.
  intros Herr Henc Hbuild line.
  rewrite (request_run _ _ _ _ _ _ _ Herr), Henc, Hbuild. cbv zeta. fold line.
  set (fileEvs := if negb (isEmpty (logFile c)) then [_] else []).
  set (errEvs := if log c then [_] else []).
  assert (Hfile : roundTrips fileEvs = []
                  /\ forall l, In l (logged fileEvs) -> l = line).
  { subst fileEvs. destruct (negb (isEmpty (logFile c))); simpl.
    - rewrite string_of_list_byte_of_string. split; [reflexivity|].
      intros l [<-|[]]. reflexivity.
    - split; [reflexivity|]. intros l []. }
  assert (Hstd : roundTrips errEvs = []
                 /\ forall l, In l (logged errEvs) ->
                      l = "HTTP DEBUG: " ++ line ++ newline).
  { subst errEvs. destruct (log c); simpl.
    - split; [reflexivity|]. intros l [<-|[]]. reflexivity.
    - split; [reflexivity|]. intros l []. }
  destruct Hfile as [Hf1 Hf2]. destruct Hstd as [Hs1 Hs2].
  destruct (if negb (isEmpty (logFile c)) then _ else None) as [werr|].
  { exists fileEvs, []. simpl. rewrite newEvents_app, app_nil_r.
    repeat split; auto; try discriminate. intros _ t q []. }
  set (pst := if disableRedirect c then _ else _).
  set (req := markEncoding enc httpReq).
  pose proof (doLoop_first (deref (snd pst) (fst pst)) (netDown (world s))
                req (network (world s)) req []) as [rest Hfirst].
  pose proof (doLoop_only_trips (deref (snd pst) (fst pst))
                (netDown (world s)) req (network (world s)) req []) as Honly.
  pose proof (fun Hreq =>
                doLoop_no_body (deref (snd pst) (fst pst))
                  (netDown (world s)) req (network (world s)) Hreq
                  req [] Hreq) as Hnobody.
  destruct (doLoop _ _ req _ req []) as [[r net'] evs].
  simpl in Hfirst, Honly, Hnobody.
  assert (Hlog : forall l, In l (logged (fileEvs ++ errEvs)) ->
                   l = line \/ l = "HTTP DEBUG: " ++ line ++ newline).
  { intros l. rewrite logged_app, in_app_iff. intros [Hl|Hl]; auto. }
  assert (Htrips : roundTrips (fileEvs ++ errEvs) = []).
  { rewrite roundTrips_app, Hf1, Hs1. reflexivity. }
  assert (Hbody : ReqBody httpReq = None ->
                  forall t q, In (t, q) (roundTrips evs) -> ReqBody q = None).
  { intros Hnone t q Hin.
    assert (Hreq : ReqBody req = None).
    { subst req. rewrite (proj1 (markEncoding_fields enc httpReq)). exact Hnone. }
    apply (Hnobody Hreq t q). exact Hin. }
  assert (Hall : forall tail : list Event,
            roundTrips tail = [] -> logged tail = [] ->
            exists logEvs netEvs,
              (fileEvs ++ errEvs ++ evs ++ tail)%list
              = (logEvs ++ netEvs)%list
              /\ roundTrips logEvs = []
              /\ (forall l, In l (logged logEvs) ->
                    l = line \/ l = "HTTP DEBUG: " ++ line ++ newline)
              /\ logged netEvs = []
              /\ (forall t q, head (roundTrips netEvs) = Some (t, q) -> q = req)
              /\ (ReqBody httpReq = None ->
                  forall t q, In (t, q) (roundTrips netEvs) ->
                              ReqBody q = None)).
  { intros tail Ht1 Ht2. exists (fileEvs ++ errEvs)%list, (evs ++ tail)%list.
    rewrite <- app_assoc. split; [reflexivity|].
    split; [exact Htrips|]. split; [exact Hlog|].
    rewrite logged_app, roundTrips_app, Honly, Ht1, Ht2, !app_nil_r.
    split; [reflexivity|]. split; [|exact Hbody].
    intros t q. rewrite Hfirst. simpl. congruence. }
  destruct r as [err|resp]; simpl.
  - rewrite newEvents_app.
    destruct (Hall [] eq_refl eq_refl) as (l1 & l2 & Heq & Hrest).
    rewrite app_nil_r in Heq. exists l1, l2. split; [exact Heq|exact Hrest].
  - destruct (if needData then RespBodyErr resp else None); simpl;
      rewrite newEvents_app; apply Hall; destruct needData; reflexivity.
Qed.

Lemma request_encode_fails (c : RequestBuilder) (ctx : option GoContext)
    (url : string) (post : bool) (data : Payload) (needData : bool)
    (s : State) (err : error) :
  buildErr c = None -> encodeBody c post data = inl err ->
  request c ctx url post data needData s = (inl err, s).
Proof.
  intros Herr Henc. rewrite (request_run _ _ _ _ _ _ _ Herr), Henc. reflexivity.
Qed.

Lemma request_build_fails (c : RequestBuilder) (ctx : option GoContext)
    (url : string) (post : bool) (data : Payload) (needData : bool)
    (s : State) (enc : Encoded) (err : error) :
  buildErr c = None -> encodeBody c post data = inr enc ->
  buildRequest c ctx (if post then "POST" else "GET") url post enc = inl err ->
  request c ctx url post data needData s = (inl err, s).
Proof.
  intros Herr Henc Hbuild.
  rewrite (request_run _ _ _ _ _ _ _ Herr), Henc, Hbuild. reflexivity.
Qed.

(** An execution that adds an event got past the payload stage and built its
    request. *)
Lemma request_started (c : RequestBuilder) (ctx : option GoContext)
    (url : string) (post : bool) (data : Payload) (needData : bool)
    (s : State) :
  newEvents s (snd (request c ctx url post data needData s)) <> [] ->
  buildErr c = None
  /\ exists enc httpReq,
       encodeBody c post data = inr enc
       /\ buildRequest c ctx (if post then "POST" else "GET") url post enc
          = inr httpReq.
Proof.
  intros Hev.
  destruct (buildErr c) as [e|] eqn:Herr.
  { rewrite (request_poisoned _ e) in Hev by exact Herr.
    simpl in Hev. rewrite newEvents_nil in Hev. congruence. }
  split; [reflexivity|].
  destruct (encodeBody c post data) as [err|enc] eqn:Henc.
  { rewrite (request_encode_fails _ _ _ _ _ _ _ err Herr Henc) in Hev.
    simpl in Hev. rewrite newEvents_nil in Hev. congruence. }
  destruct (buildRequest c ctx (if post then "POST" else "GET") url post enc)
    as [err|httpReq] eqn:Hbuild.
  { rewrite (request_build_fails _ _ _ _ _ _ _ enc err Herr Henc Hbuild) in Hev.
    simpl in Hev. rewrite newEvents_nil in Hev. congruence. }
  eauto.
Qed.

(** The first round trip of an execution carries the request it built. *)
Lemma request_first_trip (c : RequestBuilder) (ctx : option GoContext)
    (url : string) (post : bool) (data : Payload) (needData : bool)
    (s : State) (t : option RoundTripper) (q : Request) :
  head (roundTrips (newEvents s (snd (request c ctx url post data needData s))))
  = Some (t, q) ->
  exists enc httpReq,
    encodeBody c post data = inr enc
    /\ buildRequest c ctx (if post then "POST" else "GET") url post enc
       = inr httpReq
    /\ q = markEncoding enc httpReq.
Proof.
  intros Hhead.
  destruct (request_started c ctx url post data needData s)
    as (Herr & enc & httpReq & Henc & Hbuild).
  { intros Hnil. rewrite Hnil in Hhead. discriminate. }
  exists enc, httpReq. split; [exact Henc|]. split; [exact Hbuild|].
  destruct (request_events c ctx url post data needData s enc httpReq
              Herr Henc Hbuild)
    as (logEvs & netEvs & Heq & Htrips & _ & _ & Hfirst & _).
  rewrite Heq, roundTrips_app, Htrips in Hhead. simpl in Hhead.
  apply (Hfirst t q Hhead).
Qed.

Lemma serializedPayload_shapes (data : Payload) (b : list byte) :
  data = PBytes b \/ data = PRawMessage b
  \/ (exists str, data = PString str /\ b = list_byte_of_string str)
  \/ (exists v, data = POther v /\ json_Marshal v = inr b) ->
  serializedPayload data = Some (inr b).
Proof.
  intros [->|[->|[(str & -> & ->)|(v & -> & Hv)]]]; simpl; congruence.
Qed.

(** The body of the first round trip of a POST whose payload stands for the
    bytes [b]. *)
Lemma post_first_body (c : RequestBuilder) (ctx : option GoContext)
    (url : string) (data : Payload) (needData : bool) (s : State)
    (b : list byte) (t : option RoundTripper) (q : Request) :
  serializedPayload data = Some (inr b) ->
  head (roundTrips (newEvents s (snd (request c ctx url true data needData s))))
  = Some (t, q) ->
  (enableCompress c = false ->
     ReqBody q = Some b /\ ReqHeader q = baseHeader c true)
  /\ (enableCompress c = true ->
      exists z, gzipData b = inr z /\ ReqBody q = Some z
        /\ ReqHeader q
           = Header_Set (baseHeader c true) "Content-Encoding" "gzip").
Proof.
  intros Hser Hhead.
  destruct (request_first_trip _ _ _ _ _ _ _ _ _ Hhead)
    as (enc & httpReq & Henc & Hbuild & ->).
  destruct (buildRequest_fields _ _ _ _ _ _ _ Hbuild) as (_ & Hh & Hb).
  destruct (markEncoding_fields enc httpReq) as [Hmb Hmh].
  destruct (encodeBody_post c data b Hser) as [Hplain Hgz].
  split; intros Hz.
  - destruct (Hplain Hz) as (enc' & Henc' & Hbody & Hflag & _).
    rewrite Henc in Henc'. injection Henc' as <-.
    rewrite Hmb, Hmh, Hflag, Hb, Hh. auto.
  - specialize (Hgz Hz). destruct (gzipData b) as [gzErr|z].
    + rewrite Henc in Hgz. discriminate.
    + destruct Hgz as (enc' & Henc' & Hbody & Hflag & _).
      rewrite Henc in Henc'. injection Henc' as <-.
      exists z. rewrite Hmb, Hmh, Hflag, Hb, Hh. auto.
Qed.

(** C3. For a POST with a payload, the body handed to the transport is the
    payload itself when it is a byte slice, a [json.RawMessage] or a string,
    and the output of [json.Marshal] for any other value (compressed when
    compression is on); when [json.Marshal] fails, [request] returns its
    error and nothing has happened: no log, no request, no round trip. No
    round trip of a GET carries a body. *)
Theorem payload_encoding (c : RequestBuilder) (ctx : option GoContext)
    (url : string) (data : Payload) (needData : bool) (s : State) :
  (forall b,
     data = PBytes b \/ data = PRawMessage b
     \/ (exists str, data = PString str /\ b = list_byte_of_string str)
     \/ (exists v, data = POther v /\ json_Marshal v = inr b) ->
     forall t q,
       head (roundTrips
               (newEvents s (snd (request c ctx url true data needData s))))
       = Some (t, q) ->
       (enableCompress c = false -> ReqBody q = Some b)
       /\ (enableCompress c = true ->
           exists z, gzipData b = inr z /\ ReqBody q = Some z))
  /\ (forall v err,
       buildErr c = None -> data = POther v -> json_Marshal v = inl err ->
       request c ctx url true data needData s = (inl err, s))
  /\ (forall t q,
       In (t, q)
          (roundTrips
             (newEvents s (snd (request c ctx url false data needData s)))) ->
       ReqBody q = None).
Proof.
  split; [|split].
  - intros b Hshape t q Hhead.
    apply serializedPayload_shapes in Hshape.
    destruct (post_first_body c ctx url data needData s b t q Hshape Hhead)
      as [Hplain Hgz].
    split; intros Hz.
    + apply (Hplain Hz).
    + destruct (Hgz Hz) as (z & Hzip & Hbody & _). eauto.
  - intros v err Herr -> Hv. apply request_encode_fails; [exact Herr|].
    unfold encodeBody. rewrite Hv. reflexivity.
  - intros t q Hin.
    destruct (request_started c ctx url false data needData s)
      as (Herr & enc & httpReq & Henc & Hbuild).
    { intros Hnil. rewrite Hnil in Hin. destruct Hin. }
    destruct (request_events c ctx url false data needData s enc httpReq
                Herr Henc Hbuild)
      as (logEvs & netEvs & Heq & Htrips & _ & _ & _ & Hbody).
    rewrite Heq, roundTrips_app, Htrips in Hin. simpl in Hin.
    apply (Hbody ltac:(
      destruct (buildRequest_fields _ _ _ _ _ _ _ Hbuild) as (_ & _ & ->);
      unfold encodeBody in Henc; injection Henc as <-; reflexivity) t q Hin).
Qed.

Lemma encodeBody_post_log (c : RequestBuilder) (data : Payload)
    (b : list byte) (enc : Encoded) :
  serializedPayload data = Some (inr b) ->
  encodeBody c true data = inr enc ->
  forall method h url,
    curlArgs method h (logDataBytes enc) (logDataString enc) url
    = curlArgs method h b EmptyString url.
Proof.
  intros Hser Henc.
  destruct (encodeBody_post c data b Hser) as [Hplain Hgz].
  destruct (enableCompress c).
  - specialize (Hgz eq_refl). destruct (gzipData b) as [gzErr|z].
    + rewrite Henc in Hgz. discriminate.
    + destruct Hgz as (enc' & Henc' & _ & _ & Hlog).
      rewrite Henc in Henc'. injection Henc' as <-. exact Hlog.
  - destruct (Hplain eq_refl) as (enc' & Henc' & _ & _ & Hlog).
    rewrite Henc in Henc'. injection Henc' as <-. exact Hlog.
Qed.

Lemma encodeBody_no_payload (c : RequestBuilder) (post : bool)
    (data : Payload) (enc : Encoded) :
  post = false \/ data = PNil ->
  encodeBody c post data = inr enc ->
  bodyReader enc = None /\ gzipped enc = false.
Proof.
  unfold encodeBody.
  intros [->| ->] Henc; [|destruct post]; injection Henc as <-; auto.
Qed.

(** C4. For a POST whose payload stands for the bytes [b]: with compression
    on, the body handed to the transport is [gzipData b] and the request
    header is the base header with [Content-Encoding: gzip] set (and when
    [gzipData] fails the execution stops there, before any effect); with
    compression off the body is [b] and the header is the base header.
    Whatever the setting, every log written is the command line rendered
    from [b] itself. A GET, or a POST with a nil payload, has no body and
    no marker. *)
Theorem compression_wire_and_log (c : RequestBuilder)
    (ctx : option GoContext) (url : string) (needData : bool) (s : State) :
  (forall data b,
     serializedPayload data = Some (inr b) ->
     let s' := snd (request c ctx url true data needData s) in
     let line :=
       String.concat " "
         (curlArgs "POST" (baseHeader c true) b EmptyString url) in
     (forall t q,
        head (roundTrips (newEvents s s')) = Some (t, q) ->
        (enableCompress c = true ->
           exists z, gzipData b = inr z /\ ReqBody q = Some z
             /\ ReqHeader q
                = Header_Set (baseHeader c true) "Content-Encoding" "gzip")
        /\ (enableCompress c = false ->
            ReqBody q = Some b /\ ReqHeader q = baseHeader c true))
     /\ (forall gzErr,
          buildErr c = None -> enableCompress c = true ->
          gzipData b = inl gzErr ->
          request c ctx url true data needData s
          = (inl (ErrorfCompress gzErr), s))
     /\ (forall l,
          In l (logged (newEvents s s')) ->
          l = line \/ l = "HTTP DEBUG: " ++ line ++ newline))
  /\ (forall post data t q,
       post = false \/ data = PNil ->
       head (roundTrips
               (newEvents s (snd (request c ctx url post data needData s))))
       = Some (t, q) ->
       ReqBody q = None /\ ReqHeader q = baseHeader c post).
Proof.
  split.
  - intros data b Hser s' line. split; [|split].
    + intros t q Hhead.
      destruct (post_first_body c ctx url data needData s b t q Hser Hhead).
      auto.
    + intros gzErr Herr Hz Hgz. apply request_encode_fails; [exact Herr|].
      destruct (encodeBody_post c data b Hser) as [_ Hcomp].
      specialize (Hcomp Hz). rewrite Hgz in Hcomp. exact Hcomp.
    + intros l Hin. subst s'.
      destruct (request_started c ctx url true data needData s)
        as (Herr & enc & httpReq & Henc & Hbuild).
      { intros Hnil. rewrite Hnil in Hin. destruct Hin. }
      destruct (request_events c ctx url true data needData s enc httpReq
                  Herr Henc Hbuild)
        as (logEvs & netEvs & Heq & _ & Hlog & Hnet & _).
      rewrite Heq, logged_app, Hnet, app_nil_r in Hin.
      destruct (buildRequest_fields _ _ _ _ _ _ _ Hbuild) as (_ & Hh & _).
      assert (Hline : cmdLog "POST" httpReq enc url = line).
      { unfold cmdLog, line.
        rewrite Hh, (encodeBody_post_log c data b enc Hser Henc). reflexivity. }
      rewrite <- Hline. apply Hlog, Hin.
  - intros post data t q Hnone Hhead.
    destruct (request_first_trip _ _ _ _ _ _ _ _ _ Hhead)
      as (enc & httpReq & Henc & Hbuild & ->).
    destruct (buildRequest_fields _ _ _ _ _ _ _ Hbuild) as (_ & Hh & Hb).
    destruct (markEncoding_fields enc httpReq) as [Hmb Hmh].
    destruct (encodeBody_no_payload c post data enc Hnone Henc) as [Hbody Hflag].
    rewrite Hmb, Hmh, Hflag, Hb, Hh, Hbody. auto.
Qed.

(** The store after an execution: as before, or with the one copy that a
    disabled redirect policy makes. *)
Lemma request_store (c : RequestBuilder) (ctx : option GoContext)
    (url : string) (post : bool) (data : Payload) (needData : bool)
    (s : State) :
  let p0 := match client c with Some p => p | None => DefaultClient end in
  let s' := snd (request c ctx url post data needData s) in
  store s' = store s
  \/ (disableRedirect c = true
      /\ store s'
         = snd (new (store s)
                    (setCheckRedirect (deref (store s) p0)
                       (Some (fun _ _ => Some ErrRedirect))))).
Proof.
  intros p0 s'. subst s'.
  destruct (buildErr c) as [e|] eqn:Herr.
  { rewrite (request_poisoned _ e) by exact Herr. auto. }
  rewrite (request_run _ _ _ _ _ _ _ Herr).
  destruct (encodeBody c post data) as [err|enc]; [auto|].
  destruct (buildRequest c ctx _ url post enc) as [err|httpReq]; [auto|].
  cbv zeta.
  destruct (if negb (isEmpty (logFile c)) then _ else None); [auto|].
  fold p0.
  destruct (disableRedirect c); simpl;
    destruct (doLoop _ _ _ _ _ _) as [[[err|resp] net'] evs]; simpl; auto;
    destruct (if needData then RespBodyErr resp else None); simpl; auto.
Qed.

(** C5. With redirects disabled, the client used for the exchange is a new
    client object: a copy of the resolved one whose [CheckRedirect] answers
    [ErrRedirect] to everything. Every client object that existed before the
    execution reads as before after it. And when the first round trip is
    answered by a redirect whose location resolves, [request] fails with
    [ErrRedirect] wrapped in a [*url.Error]: that round trip is the only
    one, and the rest of the network is left untouched. *)
Theorem redirect_disabled (c : RequestBuilder) (ctx : option GoContext)
    (url : string) (post : bool) (data : Payload) (needData : bool)
    (s : State) :
  disableRedirect c = true ->
  let p0 := match client c with Some p => p | None => DefaultClient end in
  let clone := setCheckRedirect (deref (store s) p0)
                 (Some (fun _ _ => Some ErrRedirect)) in
  let s' := snd (request c ctx url post data needData s) in
  (exists p s1,
     resolveClient c s = (inr p, s1)
     /\ ~ allocated (store s) p
     /\ deref (store s1) p = clone
     /\ Transport (deref (store s1) p) = Transport (deref (store s) p0)
     /\ Jar (deref (store s1) p) = Jar (deref (store s) p0)
     /\ Timeout (deref (store s1) p) = Timeout (deref (store s) p0))
  /\ (forall p, allocated (store s) p ->
        deref (store s') p = deref (store s) p)
  /\ (forall ex rest t q resp u,
        network (world s) = ex :: rest ->
        head (roundTrips (newEvents s s')) = Some (t, q) ->
        ex t q = inr resp ->
        shouldRedirect (StatusCode resp) = true ->
        isEmpty (Header_Get (RespHeader resp) "Location") = false ->
        URL_Parse (ReqURL q) (Header_Get (RespHeader resp) "Location")
        = inr u ->
        (exists err,
           fst (request c ctx url post data needData s) = inl err
           /\ Unwrap err = Some ErrRedirect
           /\ errors_Is err ErrRedirect = true)
        /\ roundTrips (newEvents s s') = [(t, q)]
        /\ network (world s') = rest).
Proof.
  intros Hdis p0 clone s'. split; [|split].
  - unfold resolveClient, bind, readStore, newClient. rewrite Hdis. fold p0.
    simpl. eexists _, _. split; [reflexivity|]. simpl.
    split; [lia|]. rewrite lookup_app_r by lia. rewrite Nat.sub_diag.
    simpl. auto.
  - intros p Hp. subst s'.
    destruct (request_store c ctx url post data needData s) as [->|[_ ->]];
      [reflexivity|].
    apply new_frame, Hp.
  - intros ex rest t q resp u Hnet Hhead Hex Hcode Hloc Hparse. subst s'.
    destruct (request_started c ctx url post data needData s)
      as (Herr & enc & httpReq & Henc & Hbuild).
    { intros Hnil. rewrite Hnil in Hhead. discriminate. }
    revert Hhead.
    rewrite (request_run _ _ _ _ _ _ _ Herr), Henc, Hbuild. cbv zeta.
    set (fileEvs := if negb (isEmpty (logFile c)) then [_] else []).
    set (errEvs := if log c then [_] else []).
    assert (Hf : roundTrips fileEvs = []).
    { subst fileEvs. destruct (negb _); reflexivity. }
    assert (Hs : roundTrips errEvs = []).
    { subst errEvs. destruct (log c); reflexivity. }
    destruct (if negb (isEmpty (logFile c)) then _ else None) as [werr|].
    { simpl. rewrite newEvents_app, Hf. discriminate. }
    rewrite Hdis, Hnet. fold p0. fold clone.
    set (cl := deref (snd (new (store s) clone)) (fst (new (store s) clone))).
    assert (Hcl : cl = clone) by apply new_deref.
    set (req := markEncoding enc httpReq).
    destruct (doLoop_first cl (netDown (world s)) req (ex :: rest) req [])
      as [more Hfirst].
    destruct (doLoop cl (netDown (world s)) req (ex :: rest) req [])
      as [[r net'] evs] eqn:Hdo.
    simpl in Hfirst.
    assert (Hhd : forall tail,
              head (roundTrips (fileEvs ++ errEvs ++ evs ++ tail))
              = Some (t, q) -> t = Transport cl /\ q = req).
    { intros tail. rewrite !roundTrips_app, Hf, Hs, Hfirst. simpl.
      intros Heq. injection Heq as <- <-. auto. }
    assert (Hrun : forall tail,
              head (roundTrips (fileEvs ++ errEvs ++ evs ++ tail))
              = Some (t, q) ->
              r = inl (UrlError (urlErrorOp (Method req))
                         (Header_Get (RespHeader resp) "Location") ErrRedirect)
              /\ net' = rest /\ evs = [EvRoundTrip t q]).
    { intros tail Hh. destruct (Hhd tail Hh) as [-> ->].
      rewrite (doLoop_redirect_refused cl (netDown (world s)) req ex rest
                 req [] resp u) in Hdo; try assumption.
      - injection Hdo as <- <- <-. auto.
      - rewrite Hcl. reflexivity. }
    destruct r as [err|resp'].
    + simpl. rewrite newEvents_app. intros Hh.
      rewrite <- (app_nil_r evs) in Hh.
      destruct (Hrun [] Hh) as (Hr & -> & ->). rewrite !roundTrips_app, Hf, Hs.
      injection Hr as ->. simpl. repeat split; eauto.
    + destruct (if needData then RespBodyErr resp' else None); simpl;
        rewrite newEvents_app; intros Hh;
        destruct (Hrun _ Hh) as (Hr & _); discriminate.
Qed.

Lemma In_write_logged (name : string) (content : list byte) (perm : Z)
    (evs : list Event) :
  In (EvWriteFile name content perm) evs ->
  In (string_of_list_byte content) (logged evs).
Proof.
  intros Hin. unfold logged. apply in_flat_map.
  exists (EvWriteFile name content perm). simpl. auto.
Qed.

(** C6. A write to the log file that fails ends the execution: the file is
    the configured one, [request] returns the write error wrapped by
    [log err: %w], no event of the execution touches the network, and the
    network is as it was. Console logging cannot change the outcome: with it
    switched on or off, [request] returns the same result and leaves the
    same world and store. *)
Theorem log_file_failure (c : RequestBuilder) (ctx : option GoContext)
    (url : string) (post : bool) (data : Payload) (needData : bool)
    (s : State) :
  (forall name content perm err,
     In (EvWriteFile name content perm)
        (newEvents s (snd (request c ctx url post data needData s))) ->
     WriteFile (world s) name content perm = Some err ->
     name = logFile c /\ isEmpty (logFile c) = false
     /\ fst (request c ctx url post data needData s) = inl (ErrorfLog err)
     /\ forallb (fun e => negb (isNetwork e))
          (newEvents s (snd (request c ctx url post data needData s))) = true
     /\ network (world (snd (request c ctx url post data needData s)))
        = network (world s))
  /\ (forall v,
       fst (request (Log v c) ctx url post data needData s)
       = fst (request c ctx url post data needData s)
       /\ world (snd (request (Log v c) ctx url post data needData s))
          = world (snd (request c ctx url post data needData s))
       /\ store (snd (request (Log v c) ctx url post data needData s))
          = store (snd (request c ctx url post data needData s))).
Proof.
  split.
  - intros name content perm err Hin Hw.
    destruct (request_started c ctx url post data needData s)
      as (Herr & enc & httpReq & Henc & Hbuild).
    { intros Hnil. rewrite Hnil in Hin. destruct Hin. }
    revert Hin.
    rewrite (request_run _ _ _ _ _ _ _ Herr), Henc, Hbuild. cbv zeta.
    set (line := cmdLog _ httpReq enc url).
    set (errEvs := if log c then [_] else []).
    assert (Hs : ~ In (EvWriteFile name content perm) errEvs).
    { subst errEvs. destruct (log c); simpl; [|tauto].
      intros [Heq|[]]. discriminate. }
    destruct (isEmpty (logFile c)) eqn:Hfile; simpl negb; cbv iota.
    + (* no log file: nothing is written *)
      set (pst := if disableRedirect c then _ else _).
      pose proof (doLoop_only_trips (deref (snd pst) (fst pst))
                    (netDown (world s)) (markEncoding enc httpReq)
                    (network (world s)) (markEncoding enc httpReq) [])
        as Honly.
      destruct (doLoop _ _ _ _ _ _) as [[r net'] evs]. simpl in Honly.
      assert (Hno : forall tail, logged tail = [] ->
                ~ In (EvWriteFile name content perm)
                     ([] ++ errEvs ++ evs ++ tail)).
      { intros tail Ht. simpl. rewrite !in_app_iff. intros [Hx|[Hx|Hx]].
        - apply Hs, Hx.
        - apply In_write_logged in Hx. rewrite Honly in Hx. destruct Hx.
        - apply In_write_logged in Hx. rewrite Ht in Hx. destruct Hx. }
      destruct r as [e|resp]; simpl.
      * rewrite newEvents_app. intros Hin. exfalso.
        apply (Hno [] eq_refl). rewrite app_nil_r. exact Hin.
      * destruct needData; [destruct (RespBodyErr resp)|]; simpl;
          rewrite newEvents_app; intros Hin; exfalso;
          refine (Hno _ _ Hin); reflexivity.
    + destruct (WriteFile (world s) (logFile c) (list_byte_of_string line) 493)
        as [werr|] eqn:Hwrite.
      * simpl. rewrite newEvents_app. intros [Heq|[]].
        injection Heq as <- <- <-. rewrite Hwrite in Hw. injection Hw as <-.
        auto.
      * set (pst := if disableRedirect c then _ else _).
        pose proof (doLoop_only_trips (deref (snd pst) (fst pst))
                      (netDown (world s)) (markEncoding enc httpReq)
                      (network (world s)) (markEncoding enc httpReq) [])
          as Honly.
        destruct (doLoop _ _ _ _ _ _) as [[r net'] evs]. simpl in Honly.
        assert (Hno : forall tail, logged tail = [] ->
                  ~ In (EvWriteFile name content perm)
                       ([EvWriteFile (logFile c) (list_byte_of_string line) 493]
                        ++ errEvs ++ evs ++ tail)).
        { intros tail Ht. simpl. rewrite !in_app_iff.
          intros [Hx|[Hx|[Hx|Hx]]].
          - injection Hx as <- <- <-. congruence.
          - apply Hs, Hx.
          - apply In_write_logged in Hx. rewrite Honly in Hx. destruct Hx.
          - apply In_write_logged in Hx. rewrite Ht in Hx. destruct Hx. }
        destruct r as [e|resp]; simpl.
        -- rewrite newEvents_app. intros Hin. exfalso.
           apply (Hno [] eq_refl). rewrite app_nil_r. exact Hin.
        -- destruct needData; [destruct (RespBodyErr resp)|]; simpl;
             rewrite newEvents_app; intros Hin; exfalso;
             refine (Hno _ _ Hin); reflexivity.
  - intros v.
    destruct (buildErr c) as [e|] eqn:Herr.
    { rewrite !(request_poisoned _ e) by exact Herr. auto. }
    rewrite (request_run (Log v c) _ _ _ _ _ _ Herr).
    rewrite (request_run c _ _ _ _ _ _ Herr).
    change (encodeBody (Log v c) post data) with (encodeBody c post data).
    destruct (encodeBody c post data) as [err|enc]; [auto|].
    change (buildRequest (Log v c) ctx (if post then "POST" else "GET") url
              post enc)
      with (buildRequest c ctx (if post then "POST" else "GET") url post enc).
    destruct (buildRequest c ctx _ url post enc) as [err|httpReq]; [auto|].
    cbv zeta. simpl logFile. simpl client. simpl disableRedirect.
    destruct (if negb (isEmpty (logFile c)) then _ else None); [auto|].
    destruct (doLoop _ _ _ _ _ _) as [[[err|resp] net'] evs]; [auto|].
    destruct (if needData then RespBodyErr resp else None); auto.
Qed.

(** C2. Once the exchange has produced a response and its body has been
    read (when a result is needed) or discarded (when not), a status code of
    300 or more makes [request] return the error that carries the code, the
    status text and the body read, which is empty when no result is needed;
    below 300 it returns the body and no error. *)
Theorem status_classification (c : RequestBuilder) (ctx : option GoContext)
    (url : string) (post : bool) (data : Payload) (needData : bool)
    (s s1 : State) (resp : Response) :
  exchange c ctx url post data s = (inr resp, s1) ->
  (needData = true -> RespBodyErr resp = None) ->
  ((300 <= StatusCode resp)%Z -> needData = true ->
     fst (request c ctx url post data needData s)
     = inl (ErrorfResponse (StatusCode resp) (Status resp)
                           (string_of_list_byte (RespBody resp))))
  /\ ((300 <= StatusCode resp)%Z -> needData = false ->
      fst (request c ctx url post data needData s)
      = inl (ErrorfResponse (StatusCode resp) (Status resp) EmptyString))
  /\ ((StatusCode resp < 300)%Z ->
      fst (request c ctx url post data needData s)
      = inr (if needData then RespBody resp else [])).
Proof.
  intros Hex Hread. unfold request, bind. rewrite Hex.
  unfold readResponse, defer, bind, emit, fail, ret.
  repeat split.
  - intros Hcode ->. simpl. rewrite (Hread eq_refl). simpl.
    destruct (Z.leb_spec 300 (StatusCode resp)); [reflexivity|lia].
  - intros Hcode ->. simpl.
    destruct (Z.leb_spec 300 (StatusCode resp)); [reflexivity|lia].
  - intros Hcode. destruct needData; simpl.
    + rewrite (Hread eq_refl). simpl.
      destruct (Z.leb_spec 300 (StatusCode resp)); [lia|reflexivity].
    + destruct (Z.leb_spec 300 (StatusCode resp)); [lia|reflexivity].
Qed.

End Properties.

(** ** Further properties of the builder and of an execution *)

Section Further.

Context `{Collaborators}.

(** *** Header names and values *)

Lemma toUpper_idem (c : ascii) : toUpper (toUpper c) = toUpper c.
Proof. destruct c as [[] [] [] [] [] [] [] []]; reflexivity. Qed.

Lemma toLower_idem (c : ascii) : toLower (toLower c) = toLower c.
Proof. destruct c as [[] [] [] [] [] [] [] []]; reflexivity. Qed.

Lemma validHeaderFieldByte_toUpper (c : ascii) :
  validHeaderFieldByte (toUpper c) = validHeaderFieldByte c.
Proof. destruct c as [[] [] [] [] [] [] [] []]; reflexivity. Qed.

Lemma canonLoop_idem (s : string) :
  forall upper : bool, canonLoop upper (canonLoop upper s) = canonLoop upper s.
Proof.
  induction s as [|c s IH]; intros upper; simpl; [reflexivity|].
  assert (Hc : (if upper
                then toUpper (if upper then toUpper c else toLower c)
                else toLower (if upper then toUpper c else toLower c))
               = (if upper then toUpper c else toLower c)).
  { destruct upper; [apply toUpper_idem|apply toLower_idem]. }
  rewrite Hc, IH. reflexivity.
Qed.

Lemma validHeaderName_canonLoop (s : string) :
  forall upper : bool, validHeaderName (canonLoop upper s) = validHeaderName s.
Proof.
  induction s as [|c s IH]; intros upper; simpl; [reflexivity|].
  rewrite IH. f_equal.
  destruct upper;
    [apply validHeaderFieldByte_toUpper|apply validHeaderFieldByte_toLower].
Qed.

Lemma canonical_idem (s : string) :
  CanonicalMIMEHeaderKey (CanonicalMIMEHeaderKey s) = CanonicalMIMEHeaderKey s.
Proof.
  unfold CanonicalMIMEHeaderKey.
  destruct (validHeaderName s) eqn:Hv.
  - rewrite validHeaderName_canonLoop, Hv. apply canonLoop_idem.
  - rewrite Hv. reflexivity.
Qed.

Lemma singleValued_empty : singleValued ∅.
Proof. intros k vs Hk. rewrite lookup_empty in Hk. discriminate. Qed.

Lemma singleValued_Set (h : http_Header) (key value : string) :
  singleValued h -> singleValued (Header_Set h key value).
Proof.
  intros Hh k vs. unfold Header_Set. rewrite lookup_insert.
  case_decide as Hk.
  - intros Hvs. injection Hvs as <-. subst k.
    split; [apply canonical_idem|eauto].
  - apply Hh.
Qed.

Lemma configure_header (k : ConfigCall) (c : RequestBuilder) (st : Store) :
  header (fst (configure k c st)) = header c
  \/ exists name value,
       header (fst (configure k c st)) = Header_Set (header c) name value.
Proof.
  destruct k; simpl; eauto.
  left. unfold WithProxy.
  destruct (isEmpty proxyURL); [reflexivity|].
  destruct (buildErr c); [reflexivity|].
  destruct (url_Parse proxyURL); [reflexivity|].
  destruct (client c); reflexivity.
Qed.

Lemma configureAll_singleValued (ks : list ConfigCall) :
  forall (c : RequestBuilder) (st : Store),
    singleValued (header c) ->
    singleValued (header (fst (configureAll ks c st))).
Proof.
  induction ks as [|k ks IH]; intros c st Hc; simpl; [exact Hc|].
  pose proof (configure_header k c st) as Hk.
  destruct (configure k c st) as [c' st']. simpl in Hk.
  apply IH. destruct Hk as [->|(name & value & ->)];
    [exact Hc|apply singleValued_Set, Hc].
Qed.

(** X1. Whatever chain of configuration calls is applied to a new builder,
    every header name it holds is in canonical form and carries exactly one
    value. *)
Theorem configured_headers_canonical (ks : list ConfigCall) (st : Store) :
  singleValued (header (fst (configureAll ks New st))).
Proof. apply configureAll_singleValued, singleValued_empty. Qed.

Lemma Header_Add_fresh (h : http_Header) (k v : string) :
  CanonicalMIMEHeaderKey k = k -> h !! k = None ->
  Header_Add h k v = <[k := [v]]> h.
Proof. intros Hk Hnone. unfold Header_Add. rewrite Hk, Hnone. reflexivity. Qed.

Lemma addHeaders_disjoint (l : list (string * list string)) :
  forall target : http_Header,
    NoDup (l.*1) ->
    (forall k vs, (k, vs) ∈ l ->
       CanonicalMIMEHeaderKey k = k /\ exists v, vs = [v]) ->
    (forall k, k ∈ l.*1 -> target !! k = None) ->
    addHeaders l target = list_to_map l ∪ target.
Proof.
  induction l as [|[k vs] l IH]; intros target Hnd Hcan Hfresh.
  - simpl. symmetry. apply (left_id_L ∅ (∪)).
  - apply NoDup_cons in Hnd as [Hk Hnd].
    destruct (Hcan k vs) as [Hck [v ->]]; [left|].
    change (addHeaders ((k, [v]) :: l) target)
      with (addHeaders l (Header_Add target k v)).
    rewrite Header_Add_fresh; [|exact Hck|apply Hfresh; left].
    rewrite IH.
    + simpl. rewrite <- insert_union_l. symmetry. apply insert_union_r.
      apply not_elem_of_list_to_map_1, Hk.
    + exact Hnd.
    + intros k' vs' Hin. apply Hcan. right. exact Hin.
    + intros k' Hin. rewrite lookup_insert_ne.
      * apply Hfresh. right. exact Hin.
      * intros <-. apply Hk, Hin.
Qed.

Lemma addHeaders_perm (h : http_Header)
    (entries : list (string * list string)) :
  singleValued h -> entries ≡ₚ map_to_list h -> addHeaders entries ∅ = h.
Proof.
  intros Hh Hl. rewrite addHeaders_disjoint.
  - rewrite (right_id_L ∅ (∪)).
    rewrite (list_to_map_proper entries (map_to_list h)).
    + apply list_to_map_to_list.
    + rewrite Hl. apply NoDup_fst_map_to_list.
    + exact Hl.
  - rewrite Hl. apply NoDup_fst_map_to_list.
  - intros k vs Hin. rewrite Hl in Hin.
    apply elem_of_map_to_list in Hin. apply (Hh k vs Hin).
  - intros k _. apply lookup_empty.
Qed.

(** X2. Go ranges over the configured headers in no fixed order. Whatever
    the order, adding them to an empty header gives back the configured
    header, when that header has canonical names with one value each (as
    every header built by [Header] has); in particular [applyHeaders] does. *)
Theorem addHeaders_any_order (h : http_Header)
    (entries : list (string * list string)) :
  singleValued h -> entries ≡ₚ map_to_list h ->
  addHeaders entries ∅ = h /\ applyHeaders h ∅ = h.
Proof.
  intros Hh Hperm. split; [apply addHeaders_perm; assumption|].
  apply (addHeaders_perm h (map_to_list h) Hh). reflexivity.
Qed.

(** The header of the first round trip: the base header, with the
    content-encoding marker when the body was compressed. *)
Lemma first_trip_header (c : RequestBuilder) (ctx : option GoContext)
    (url : string) (post : bool) (data : Payload) (needData : bool)
    (s : State) (t : option RoundTripper) (q : Request) :
  head (roundTrips (newEvents s (snd (request c ctx url post data needData s))))
  = Some (t, q) ->
  ReqHeader q = baseHeader c post
  \/ (post = true
      /\ ReqHeader q
         = Header_Set (baseHeader c post) "Content-Encoding" "gzip").
Proof.
  intros Hhead.
  destruct (request_first_trip _ _ _ _ _ _ _ _ _ Hhead)
    as (enc & httpReq & Henc & Hbuild & ->).
  destruct (buildRequest_fields _ _ _ _ _ _ _ Hbuild) as (_ & Hh & _).
  destruct (markEncoding_fields enc httpReq) as [_ Hmh].
  rewrite Hmh, Hh.
  destruct (gzipped enc) eqn:Hgz; [|auto].
  destruct post; [auto|].
  destruct (encodeBody_no_payload c false data enc (or_introl eq_refl) Henc)
    as [_ Hno]. congruence.
Qed.


(** X4. A POST is labelled JSON whatever its payload and whatever the
    caller configured: the first round trip of a POST carries
    [Content-Type: application/json] and nothing else under that name. *)
Theorem post_content_type_forced (c : RequestBuilder)
    (ctx : option GoContext) (url : string) (data : Payload)
    (needData : bool) (s : State) (t : option RoundTripper) (q : Request) :
  head (roundTrips (newEvents s (snd (request c ctx url true data needData s))))
  = Some (t, q) ->
  Header_Values (ReqHeader q) "Content-Type" = ["application/json"].
Proof.
  intros Hhead.
  destruct (first_trip_header _ _ _ _ _ _ _ _ _ Hhead) as [Hq|[_ Hq]];
    rewrite Hq; unfold baseHeader, Header_Values, Header_Set.
  - rewrite lookup_insert_eq. reflexivity.
  - rewrite lookup_insert_ne by discriminate.
    rewrite lookup_insert_eq. reflexivity.
Qed.

(** X5. Distinct header names can be set in either order: two [Header]
    calls whose names have different canonical forms commute. *)
Theorem Header_commute (c : RequestBuilder) (n1 n2 v1 v2 : string) :
  CanonicalMIMEHeaderKey n1 <> CanonicalMIMEHeaderKey n2 ->
  Header n1 v1 (Header n2 v2 c) = Header n2 v2 (Header n1 v1 c).
Proof.
  intros Hne. unfold Header. simpl. f_equal.
  unfold Header_Set. apply insert_insert_ne. exact Hne.
Qed.

(** *** Proxy configuration *)

(** X6. The first proxy URL that fails to parse is the error the builder
    keeps: the call changes nothing else (same client, same store), and
    whatever is configured afterwards, other unparsable proxies included,
    [Get] and [PostJSON] return that first error without any effect. *)
Theorem first_proxy_error_kept (c : RequestBuilder) (st : Store)
    (proxyURL : string) (err : error) (ks : list ConfigCall) :
  isEmpty proxyURL = false -> buildErr c = None ->
  url_Parse proxyURL = inl err ->
  WithProxy proxyURL c st = (setBuildErr c (Some err), st)
  /\ (forall ctx url res s,
        Get (fst (configureAll ks (fst (WithProxy proxyURL c st)) st))
            ctx url res s
        = ((Some err, res), s))
  /\ (forall ctx url data res s,
        PostJSON (fst (configureAll ks (fst (WithProxy proxyURL c st)) st))
                 ctx url data res s
        = ((Some err, res), s)).
Proof.
  intros Hne Hclean Hparse.
  assert (Hw : WithProxy proxyURL c st = (setBuildErr c (Some err), st)).
  { unfold WithProxy. rewrite Hne, Hclean, Hparse. reflexivity. }
  rewrite Hw. simpl fst.
  destruct (configureAll_poisoned ks (setBuildErr c (Some err)) st err eq_refl)
    as [Hb _].
  split; [reflexivity|]. split; intros.
  - unfold Get. rewrite (request_poisoned _ err) by exact Hb. reflexivity.
  - unfold PostJSON. rewrite (request_poisoned _ err) by exact Hb. reflexivity.
Qed.

Lemma WithProxy_valid (c : RequestBuilder) (st : Store) (proxyURL : string)
    (u : URL) :
  isEmpty proxyURL = false -> buildErr c = None ->
  url_Parse proxyURL = inr u ->
  WithProxy proxyURL c st
  = (setClient c (Some (fst (new st zeroClient))),
     snd (new st (setTransport
                    match client c with
                    | Some p0 => deref st p0
                    | None => zeroClient
                    end (Some (HttpTransport (Some u)))))).
Proof.
  intros Hne Hclean Hparse. unfold WithProxy.
  rewrite Hne, Hclean, Hparse. destruct (client c); reflexivity.
Qed.

(** X7. Of two valid proxies configured one after the other the second
    wins, and nothing else is lost: the builder ends up with a client object
    that is the original client (the zero client if none was configured)
    with the second proxy as its transport, and every client object that
    existed before the two calls reads as before. *)
Theorem WithProxy_twice (c : RequestBuilder) (st : Store)
    (u1 u2 : string) (p1 p2 : URL) :
  isEmpty u1 = false -> isEmpty u2 = false -> buildErr c = None ->
  url_Parse u1 = inr p1 -> url_Parse u2 = inr p2 ->
  let original := match client c with
                  | Some p0 => deref st p0
                  | None => zeroClient
                  end in
  let c1 := fst (WithProxy u1 c st) in
  let st1 := snd (WithProxy u1 c st) in
  let c2 := fst (WithProxy u2 c1 st1) in
  let st2 := snd (WithProxy u2 c1 st1) in
  (exists p, client c2 = Some p
     /\ deref st2 p = setTransport original (Some (HttpTransport (Some p2))))
  /\ (forall p, allocated st p -> deref st2 p = deref st p).
Proof.
  intros Hn1 Hn2 Hclean Hp1 Hp2 original c1 st1 c2 st2.
  subst c2 st2 c1 st1.
  rewrite (WithProxy_valid c st u1 p1 Hn1 Hclean Hp1). simpl fst. simpl snd.
  fold original.
  set (cl1 := setTransport original (Some (HttpTransport (Some p1)))).
  rewrite (WithProxy_valid (setClient c (Some (fst (new st zeroClient)))) _
             u2 p2 Hn2 Hclean Hp2). simpl fst. simpl snd.
  split.
  - eexists. split; [reflexivity|].
    unfold deref. cbn [cells].
    rewrite (lookup_app_r (cells st ++ [cl1])) by lia.
    rewrite Nat.sub_diag. simpl.
    rewrite lookup_app_r by lia. rewrite Nat.sub_diag. reflexivity.
  - intros [|a] Hp; [reflexivity|]. simpl in Hp. unfold deref. cbn [cells].
    rewrite !lookup_app_l; [reflexivity|exact Hp|].
    rewrite length_app. lia.
Qed.

(** *** The request handed to the transport *)

Lemma buildRequest_target (c : RequestBuilder) (ctx : option GoContext)
    (method url : string) (post : bool) (enc : Encoded) (r : Request) :
  buildRequest c ctx method url post enc = inr r ->
  ctx = Some (ReqCtx r) /\ url_Parse url = inr (ReqURL r).
Proof.
  unfold buildRequest, NewRequestWithContext.
  destruct ctx as [cx|]; [|discriminate].
  destruct (url_Parse url) as [err|u]; [discriminate|].
  intros Hr. injection Hr as <-. destruct post; simpl; auto.
Qed.

Lemma markEncoding_target (enc : Encoded) (r : Request) :
  Method (markEncoding enc r) = Method r
  /\ ReqURL (markEncoding enc r) = ReqURL r
  /\ ReqCtx (markEncoding enc r) = ReqCtx r.
Proof. unfold markEncoding. destruct (gzipped enc); simpl; auto. Qed.

(** X8. The request of the first round trip is the one asked for: its
    method is POST for a POST and GET otherwise, its URL is the given URL
    as parsed, and it is bound to the caller's context. *)
Theorem first_trip_target (c : RequestBuilder) (ctx : option GoContext)
    (url : string) (post : bool) (data : Payload) (needData : bool)
    (s : State) (t : option RoundTripper) (q : Request) :
  head (roundTrips (newEvents s (snd (request c ctx url post data needData s))))
  = Some (t, q) ->
  Method q = (if post then "POST" else "GET")
  /\ url_Parse url = inr (ReqURL q)
  /\ ctx = Some (ReqCtx q).
Proof.
  intros Hhead.
  destruct (request_first_trip _ _ _ _ _ _ _ _ _ Hhead)
    as (enc & httpReq & Henc & Hbuild & ->).
  destruct (buildRequest_fields _ _ _ _ _ _ _ Hbuild) as (Hm & _ & _).
  destruct (buildRequest_target _ _ _ _ _ _ _ Hbuild) as (Hctx & Hurl).
  destruct (markEncoding_target enc httpReq) as (-> & -> & ->).
  auto.
Qed.

(** X9. A request that cannot be constructed is never logged or sent: with
    a nil context or a URL that does not parse, [request] returns the
    construction error and leaves the state untouched, whatever logging is
    configured. *)
Theorem construction_failure_has_no_effect (c : RequestBuilder)
    (ctx : option GoContext) (url : string) (post : bool) (data : Payload)
    (needData : bool) (s : State) (enc : Encoded) :
  buildErr c = None -> encodeBody c post data = inr enc ->
  (ctx = None ->
     request c ctx url post data needData s
     = (inl (LibError "net/http" "nil Context"), s))
  /\ (forall cx err,
        ctx = Some cx -> url_Parse url = inl err ->
        request c ctx url post data needData s = (inl err, s)).
Proof.
  intros Hclean Henc. split.
  - intros ->. apply (request_build_fails _ _ _ _ _ _ _ enc); auto.
  - intros cx err -> Hparse.
    apply (request_build_fails _ _ _ _ _ _ _ enc); auto.
    unfold buildRequest, NewRequestWithContext. rewrite Hparse. reflexivity.
Qed.

(** *** The response body *)

(** X10. Once the exchange has produced a response, its body is read (when
    a result is needed) or discarded (when not) and then closed, on every
    path: the execution adds exactly these two events and changes nothing
    else. When the exchange fails, [request] returns its error and the
    state it left: no body is read, discarded or closed. *)
Theorem response_body_released (c : RequestBuilder) (ctx : option GoContext)
    (url : string) (post : bool) (data : Payload) (needData : bool)
    (s s1 : State) :
  (forall resp,
     exchange c ctx url post data s = (inr resp, s1) ->
     snd (request c ctx url post data needData s)
     = {| world := world s1; store := store s1;
          trace := trace s1 ++ [if needData then EvReadAll else EvDiscard;
                                EvBodyClose] |})
  /\ (forall err,
        exchange c ctx url post data s = (inl err, s1) ->
        request c ctx url post data needData s = (inl err, s1)).
Proof.
  split.
  - intros resp Hex. unfold request, bind. rewrite Hex.
    unfold readResponse, defer, bind, emit, emitted, fail, ret.
    destruct needData; simpl.
    + destruct (RespBodyErr resp); simpl;
        try destruct (300 <=? StatusCode resp)%Z; simpl;
        rewrite <- app_assoc; reflexivity.
    + destruct (300 <=? StatusCode resp)%Z; simpl;
        rewrite <- app_assoc; reflexivity.
  - intros err Hex. unfold request, bind. rewrite Hex. reflexivity.
Qed.

(** X11. A body that cannot be read wins over the status: when a result is
    needed and reading the body fails, [request] returns the read error,
    whatever the status code of the response. *)
Theorem read_failure_precedes_status (c : RequestBuilder)
    (ctx : option GoContext) (url : string) (post : bool) (data : Payload)
    (s s1 : State) (resp : Response) (err : error) :
  exchange c ctx url post data s = (inr resp, s1) ->
  RespBodyErr resp = Some err ->
  fst (request c ctx url post data true s) = inl err.
Proof.
  intros Hex Hread. unfold request, bind. rewrite Hex.
  unfold readResponse, defer, bind, emit, fail, ret. simpl.
  rewrite Hread. reflexivity.
Qed.

(** X12. Only [DisableRedirect] makes an execution copy a client: without
    it [request] leaves the store of client objects exactly as it was. *)
Theorem store_unchanged_without_flag (c : RequestBuilder)
    (ctx : option GoContext) (url : string) (post : bool) (data : Payload)
    (needData : bool) (s : State) :
  disableRedirect c = false ->
  store (snd (request c ctx url post data needData s)) = store s.
Proof.
  intros Hflag.
  destruct (request_store c ctx url post data needData s) as [Hs|[Hd _]];
    [exact Hs|congruence].
Qed.

(** *** Payload shapes *)

Lemma buildRequest_congr (c : RequestBuilder) (ctx : option GoContext)
    (method url : string) (post : bool) (e1 e2 : Encoded) :
  bodyReader e1 = bodyReader e2 ->
  buildRequest c ctx method url post e1 = buildRequest c ctx method url post e2.
Proof. intros Hb. unfold buildRequest. rewrite Hb. reflexivity. Qed.

Lemma encodeBody_same_bytes (c : RequestBuilder) (d1 d2 : Payload)
    (b : list byte) :
  serializedPayload d1 = Some (inr b) ->
  serializedPayload d2 = Some (inr b) ->
  (exists err, encodeBody c true d1 = inl err /\ encodeBody c true d2 = inl err)
  \/ (exists e1 e2,
        encodeBody c true d1 = inr e1 /\ encodeBody c true d2 = inr e2
        /\ bodyReader e1 = bodyReader e2 /\ gzipped e1 = gzipped e2
        /\ forall method h url,
             curlArgs method h (logDataBytes e1) (logDataString e1) url
             = curlArgs method h (logDataBytes e2) (logDataString e2) url).
Proof.
  intros H1 H2.
  destruct (encodeBody_post c d1 b H1) as [Hp1 Hg1].
  destruct (encodeBody_post c d2 b H2) as [Hp2 Hg2].
  destruct (enableCompress c).
  - specialize (Hg1 eq_refl). specialize (Hg2 eq_refl).
    destruct (gzipData b) as [gzErr|z]; [left; eauto|].
    destruct Hg1 as (e1 & He1 & Hb1 & Hz1 & Hl1).
    destruct Hg2 as (e2 & He2 & Hb2 & Hz2 & Hl2).
    right. exists e1, e2.
    split; [exact He1|]. split; [exact He2|].
    split; [congruence|]. split; [congruence|].
    intros. rewrite Hl1, Hl2. reflexivity.
  - destruct (Hp1 eq_refl) as (e1 & He1 & Hb1 & Hz1 & Hl1).
    destruct (Hp2 eq_refl) as (e2 & He2 & Hb2 & Hz2 & Hl2).
    right. exists e1, e2.
    split; [exact He1|]. split; [exact He2|].
    split; [congruence|]. split; [congruence|].
    intros. rewrite Hl1, Hl2. reflexivity.
Qed.

(** X13. A POST behaves exactly as a POST of the bytes its payload stands
    for: a string, a [json.RawMessage] or a value that [json.Marshal] turns
    into [b] gives the same result, the same log, the same round trips and
    the same final state as the byte slice [b]. *)
Theorem payload_normal_form (c : RequestBuilder) (ctx : option GoContext)
    (url : string) (data : Payload) (b : list byte) (needData : bool)
    (s : State) :
  serializedPayload data = Some (inr b) ->
  request c ctx url true data needData s
  = request c ctx url true (PBytes b) needData s.
Proof.
  intros Hser.
  destruct (buildErr c) as [e|] eqn:Hclean.
  { rewrite !(request_poisoned _ e) by exact Hclean. reflexivity. }
  rewrite !(request_run _ _ _ _ _ _ _ Hclean).
  destruct (encodeBody_same_bytes c data (PBytes b) b Hser eq_refl)
    as [(err & -> & ->)|(e1 & e2 & -> & -> & Hb & Hz & Hl)]; [reflexivity|].
  rewrite (buildRequest_congr c ctx "POST" url true e1 e2 Hb).
  destruct (buildRequest c ctx "POST" url true e2) as [err|httpReq];
    [reflexivity|].
  cbv zeta. unfold cmdLog, markEncoding. rewrite Hl, Hz. reflexivity.
Qed.

(** *** The events of an execution *)

Lemma doLoop_all_trips (cl : Client) (down : error) (ireq : Request)
    (net : list Exchange) :
  forall (req : Request) (via : list Request) (e : Event),
    In e (snd (doLoop cl down ireq net req via)) ->
    exists t r, e = EvRoundTrip t r.
Proof.
  assert (Hone : forall (req : Request) (e : Event),
             In e [EvRoundTrip (Transport cl) req] ->
             exists t r, e = EvRoundTrip t r).
  { intros req e [<-|[]]. eauto. }
  induction net as [|ex net IH]; intros req via e; simpl; [apply Hone|].
  destruct (ex (Transport cl) req) as [err|resp]; [apply Hone|].
  destruct (shouldRedirect (StatusCode resp)); [|apply Hone].
  destruct (isEmpty _); [apply Hone|].
  destruct (nextHop ireq req resp _) as [err|req']; [apply Hone|].
  destruct (checkRedirect cl req' (via ++ [req])%list) as [[]|];
    try apply Hone.
  specialize (IH req' (via ++ [req])%list e).
  destruct (doLoop cl down ireq net req' (via ++ [req])%list)
    as [[r net''] evs].
  simpl in *. intros [<-|Hin]; eauto.
Qed.

(** The events of an execution that built its request, in full. *)
Lemma request_trace (c : RequestBuilder) (ctx : option GoContext)
    (url : string) (post : bool) (data : Payload) (needData : bool)
    (s : State) (enc : Encoded) (httpReq : Request) :
  buildErr c = None ->
  encodeBody c post data = inr enc ->
  buildRequest c ctx (if post then "POST" else "GET") url post enc
  = inr httpReq ->
  let line := cmdLog (if post then "POST" else "GET") httpReq enc url in
  let fileEvs :=
    if negb (isEmpty (logFile c))
    then [EvWriteFile (logFile c) (list_byte_of_string line) 493]
    else [] in
  let errEvs :=
    if log c then [EvStderr ("HTTP DEBUG: " ++ line ++ newline)] else [] in
  let p0 := match client c with Some p => p | None => DefaultClient end in
  let pst :=
    if disableRedirect c
    then new (store s)
             (setCheckRedirect (deref (store s) p0)
                               (Some (fun _ _ => Some ErrRedirect)))
    else (p0, store s) in
  let run :=
    doLoop (deref (snd pst) (fst pst)) (netDown (world s))
           (markEncoding enc httpReq) (network (world s))
           (markEncoding enc httpReq) [] in
  newEvents s (snd (request c ctx url post data needData s))
  = match (if negb (isEmpty (logFile c))
           then WriteFile (world s) (logFile c) (list_byte_of_string line) 493
           else None) with
    | Some _ => fileEvs
    | None =>
        (fileEvs ++ errEvs ++ snd run
         ++ match fst (fst run) with
            | inl _ => []
            | inr _ => [if needData then EvReadAll else EvDiscard; EvBodyClose]
            end)%list
    end
  /\ network (world (snd (request c ctx url post data needData s)))
     = match (if negb (isEmpty (logFile c))
              then WriteFile (world s) (logFile c) (list_byte_of_string line) 493
              else None) with
       | Some _ => network (world s)
       | None => snd (fst run)
       end.
Proof.
  intros Hclean Henc Hbuild line fileEvs errEvs p0 pst run.
  rewrite (request_run _ _ _ _ _ _ _ Hclean), Henc, Hbuild. cbv zeta.
  fold line. fold fileEvs. fold errEvs. fold p0. fold pst. fold run.
  destruct (if negb (isEmpty (logFile c)) then _ else None).
  { simpl. rewrite newEvents_app. auto. }
  destruct run as [[[err|resp] net'] evs]; simpl.
  - rewrite newEvents_app, app_nil_r. auto.
  - destruct needData; [destruct (RespBodyErr resp)|]; simpl;
      rewrite newEvents_app; auto.
Qed.

(** An execution that did not get as far as building its request leaves
    the state as it was. *)
Lemma request_not_started (c : RequestBuilder) (ctx : option GoContext)
    (url : string) (post : bool) (data : Payload) (needData : bool)
    (s : State) :
  snd (request c ctx url post data needData s) = s
  \/ (buildErr c = None
      /\ exists enc httpReq,
           encodeBody c post data = inr enc
           /\ buildRequest c ctx (if post then "POST" else "GET") url post enc
              = inr httpReq).
Proof.
  destruct (buildErr c) as [e|] eqn:Hclean.
  { left. rewrite (request_poisoned _ e) by exact Hclean. reflexivity. }
  destruct (encodeBody c post data) as [err|enc] eqn:Henc.
  { left. rewrite (request_encode_fails _ _ _ _ _ _ _ err Hclean Henc).
    reflexivity. }
  destruct (buildRequest c ctx (if post then "POST" else "GET") url post enc)
    as [err|httpReq] eqn:Hbuild.
  { left. rewrite (request_build_fails _ _ _ _ _ _ _ enc err Hclean Henc Hbuild).
    reflexivity. }
  right. eauto.
Qed.

(** X14. What the logs receive. When the request has been built and the
    log file, if any, can be written: the file receives exactly the command
    line, without prefix or newline, and the diagnostic stream, when console
    logging is on, receives the same line between [HTTP DEBUG: ] and a
    newline, after the file; with neither configured nothing is written. *)
Theorem logs_written (c : RequestBuilder) (ctx : option GoContext)
    (url : string) (post : bool) (data : Payload) (needData : bool)
    (s : State) (enc : Encoded) (httpReq : Request) :
  buildErr c = None ->
  encodeBody c post data = inr enc ->
  buildRequest c ctx (if post then "POST" else "GET") url post enc
  = inr httpReq ->
  let line := cmdLog (if post then "POST" else "GET") httpReq enc url in
  let console :=
    if log c then ["HTTP DEBUG: " ++ line ++ newline] else [] in
  (isEmpty (logFile c) = true ->
     logged (newEvents s (snd (request c ctx url post data needData s)))
     = console)
  /\ (isEmpty (logFile c) = false ->
      WriteFile (world s) (logFile c) (list_byte_of_string line) 493 = None ->
      logged (newEvents s (snd (request c ctx url post data needData s)))
      = line :: console).
Proof.
  intros Hclean Henc Hbuild line console.
  destruct (request_trace c ctx url post data needData s enc httpReq
              Hclean Henc Hbuild) as [Htrace _].
  cbv zeta in Htrace. fold line in Htrace.
  set (run := doLoop _ _ _ _ _ _) in Htrace.
  assert (Hrun : logged (snd run) = []) by apply doLoop_only_trips.
  assert (Htail : logged
                    match fst (fst run) with
                    | inl _ => []
                    | inr _ => [if needData then EvReadAll else EvDiscard;
                                EvBodyClose]
                    end = []).
  { destruct (fst (fst run)); [reflexivity|destruct needData; reflexivity]. }
  split.
  - intros Hfile. rewrite Hfile in Htrace. simpl in Htrace.
    rewrite Htrace, !logged_app, Hrun, Htail, !app_nil_r.
    subst console. destruct (log c); reflexivity.
  - intros Hfile Hwrite. rewrite Hfile in Htrace. simpl negb in Htrace.
    cbv iota in Htrace. rewrite Hwrite in Htrace.
    rewrite Htrace, !logged_app, Hrun, Htail, !app_nil_r. simpl.
    rewrite string_of_list_byte_of_string.
    subst console. destruct (log c); reflexivity.
Qed.

(** X15. All logging comes before the network is touched: the events of an
    execution are log events followed by network events. *)
Theorem log_precedes_network (c : RequestBuilder) (ctx : option GoContext)
    (url : string) (post : bool) (data : Payload) (needData : bool)
    (s : State) :
  exists logEvs netEvs,
    newEvents s (snd (request c ctx url post data needData s))
    = (logEvs ++ netEvs)%list
    /\ forallb (fun e => negb (isNetwork e)) logEvs = true
    /\ forallb isNetwork netEvs = true.
Proof.
  destruct (request_not_started c ctx url post data needData s)
    as [->|(Hclean & enc & httpReq & Henc & Hbuild)].
  { exists [], []. rewrite newEvents_nil. auto. }
  destruct (request_trace c ctx url post data needData s enc httpReq
              Hclean Henc Hbuild) as [Htrace _].
  cbv zeta in Htrace. rewrite Htrace.
  set (fileEvs := if negb (isEmpty (logFile c)) then [_] else []).
  set (errEvs := if log c then [_] else []).
  set (run := doLoop _ _ _ _ _ _).
  assert (Hf : forallb (fun e => negb (isNetwork e)) fileEvs = true).
  { subst fileEvs. destruct (negb _); reflexivity. }
  assert (He : forallb (fun e => negb (isNetwork e)) errEvs = true).
  { subst errEvs. destruct (log c); reflexivity. }
  destruct (if negb (isEmpty (logFile c)) then _ else None).
  { exists fileEvs, []. rewrite app_nil_r. auto. }
  exists (fileEvs ++ errEvs)%list,
         (snd run ++ match fst (fst run) with
                     | inl _ => []
                     | inr _ => [if needData then EvReadAll else EvDiscard;
                                 EvBodyClose]
                     end)%list.
  rewrite <- app_assoc. split; [reflexivity|].
  rewrite !forallb_app, Hf, He. split; [reflexivity|].
  apply andb_true_intro. split.
  - apply forallb_forall. intros e Hin.
    destruct (doLoop_all_trips _ _ _ _ _ _ e Hin) as (t & r & ->).
    reflexivity.
  - destruct (fst (fst run)); [reflexivity|destruct needData; reflexivity].
Qed.

(** With the refusing hook the client's loop makes one round trip and takes
    one exchange, whatever the answer. *)
Lemma doLoop_refusing (cl : Client) (down : error) (ireq : Request)
    (net : list Exchange) (req : Request) (via : list Request) :
  CheckRedirect cl = Some (fun _ _ => Some ErrRedirect) ->
  snd (doLoop cl down ireq net req via) = [EvRoundTrip (Transport cl) req]
  /\ snd (fst (doLoop cl down ireq net req via)) = tail net.
Proof.
  intros Hhook. destruct net as [|ex net]; simpl; [auto|].
  destruct (ex (Transport cl) req) as [err|resp]; [auto|].
  destruct (shouldRedirect (StatusCode resp)); [|auto].
  destruct (isEmpty _); [auto|].
  destruct (nextHop ireq req resp _) as [err|req']; [auto|].
  unfold checkRedirect. rewrite Hhook. auto.
Qed.

(** X16. With redirects disabled an execution never makes a second round
    trip, whatever the server answers: at most one request is sent and at
    most one exchange of the network is used. *)
Theorem redirect_disabled_single_trip (c : RequestBuilder)
    (ctx : option GoContext) (url : string) (post : bool) (data : Payload)
    (needData : bool) (s : State) :
  disableRedirect c = true ->
  length (roundTrips
            (newEvents s (snd (request c ctx url post data needData s)))) <= 1
  /\ (network (world (snd (request c ctx url post data needData s)))
      = network (world s)
      \/ network (world (snd (request c ctx url post data needData s)))
         = tail (network (world s))).
Proof.
  intros Hdis.
  destruct (request_not_started c ctx url post data needData s)
    as [->|(Hclean & enc & httpReq & Henc & Hbuild)].
  { rewrite newEvents_nil. simpl. split; [lia|auto]. }
  destruct (request_trace c ctx url post data needData s enc httpReq
              Hclean Henc Hbuild) as [Htrace Hnet].
  cbv zeta in Htrace, Hnet. rewrite Htrace, Hnet. rewrite Hdis.
  set (fileEvs := if negb (isEmpty (logFile c)) then [_] else []).
  set (errEvs := if log c then [_] else []).
  set (cl := deref (snd (new _ _)) (fst (new _ _))).
  assert (Hcl : CheckRedirect cl = Some (fun _ _ => Some ErrRedirect)).
  { subst cl. rewrite new_deref. reflexivity. }
  set (run := doLoop cl _ _ _ _ _).
  destruct (doLoop_refusing cl (netDown (world s)) (markEncoding enc httpReq)
              (network (world s)) (markEncoding enc httpReq) [] Hcl)
    as [Hevs Hrest].
  fold run in Hevs, Hrest.
  assert (Hf : roundTrips fileEvs = []).
  { subst fileEvs. destruct (negb _); reflexivity. }
  assert (He : roundTrips errEvs = []).
  { subst errEvs. destruct (log c); reflexivity. }
  destruct (if negb (isEmpty (logFile c)) then _ else None).
  { rewrite Hf. simpl. split; [lia|auto]. }
  rewrite !roundTrips_app, Hf, He, Hevs, Hrest. split; [|auto].
  destruct (fst (fst run)); [simpl; lia|destruct needData; simpl; lia].
Qed.

(** The transport of the first round trip is that of the resolved client,
    copied or not. *)
Lemma first_trip_transport (c : RequestBuilder) (ctx : option GoContext)
    (url : string) (post : bool) (data : Payload) (needData : bool)
    (s : State) (t : option RoundTripper) (q : Request) :
  head (roundTrips (newEvents s (snd (request c ctx url post data needData s))))
  = Some (t, q) ->
  t = Transport (deref (store s)
                   match client c with Some p => p | None => DefaultClient end).
Proof.
  intros Hhead.
  destruct (request_not_started c ctx url post data needData s)
    as [Hs|(Hclean & enc & httpReq & Henc & Hbuild)].
  { rewrite Hs, newEvents_nil in Hhead. discriminate. }
  destruct (request_trace c ctx url post data needData s enc httpReq
              Hclean Henc Hbuild) as [Htrace _].
  cbv zeta in Htrace. rewrite Htrace in Hhead. clear Htrace.
  set (fileEvs := if negb (isEmpty (logFile c)) then [_] else []) in Hhead.
  set (errEvs := if log c then [_] else []) in Hhead.
  set (pst := if disableRedirect c then _ else _) in Hhead.
  assert (Hf : roundTrips fileEvs = []).
  { subst fileEvs. destruct (negb _); reflexivity. }
  assert (He : roundTrips errEvs = []).
  { subst errEvs. destruct (log c); reflexivity. }
  destruct (if negb (isEmpty (logFile c)) then _ else None).
  { rewrite Hf in Hhead. discriminate. }
  destruct (doLoop_first (deref (snd pst) (fst pst)) (netDown (world s))
              (markEncoding enc httpReq) (network (world s))
              (markEncoding enc httpReq) []) as [rest Hfirst].
  rewrite !roundTrips_app, Hf, He, Hfirst in Hhead. simpl in Hhead.
  injection Hhead as <- _.
  subst pst. destruct (disableRedirect c); [|reflexivity].
  rewrite new_deref. reflexivity.
Qed.

(** X17. A proxy configured with [WithProxy] is the transport the request
    goes through: on a builder that keeps the client [WithProxy] installed
    (with or without [DisableRedirect], or any other setting), the first
    round trip uses the [http.Transport] whose proxy is the parsed URL. *)
Theorem proxy_transport_used (c0 c : RequestBuilder) (st : Store)
    (proxyURL : string) (u : URL) (ctx : option GoContext) (url : string)
    (post : bool) (data : Payload) (needData : bool) (s : State)
    (t : option RoundTripper) (q : Request) :
  isEmpty proxyURL = false -> buildErr c0 = None ->
  url_Parse proxyURL = inr u ->
  client c = client (fst (WithProxy proxyURL c0 st)) ->
  store s = snd (WithProxy proxyURL c0 st) ->
  head (roundTrips (newEvents s (snd (request c ctx url post data needData s))))
  = Some (t, q) ->
  t = Some (HttpTransport (Some u)).
Proof.
  intros Hne Hclean Hparse Hclient Hstore Hhead.
  rewrite (first_trip_transport _ _ _ _ _ _ _ _ _ Hhead).
  rewrite Hclient, Hstore, (WithProxy_valid c0 st proxyURL u Hne Hclean Hparse).
  cbn [fst snd client setClient].
  change (fst (new st zeroClient))
    with (fst (new st (setTransport
                         match client c0 with
                         | Some p0 => deref st p0
                         | None => zeroClient
                         end (Some (HttpTransport (Some u)))))).
  rewrite new_deref. reflexivity.
Qed.

(** *** Reading the body *)

Lemma Get_state (c : RequestBuilder) (ctx : option GoContext) (url : string)
    (res : Target) (s : State) :
  snd (Get c ctx url res s)
  = snd (request c ctx url false PNil (negb (isNil res)) s).
Proof.
  unfold Get.
  destruct (request c ctx url false PNil (negb (isNil res)) s)
    as [[err|body] s']; [reflexivity|].
  destruct (isNil res || (length body =? 0)%nat); [reflexivity|].
  destruct res; reflexivity.
Qed.

Lemma PostJSON_state (c : RequestBuilder) (ctx : option GoContext)
    (url : string) (data : Payload) (res : Target) (s : State) :
  snd (PostJSON c ctx url data res s)
  = snd (request c ctx url true data (negb (isNil res)) s).
Proof.
  unfold PostJSON.
  destruct (request c ctx url true data (negb (isNil res)) s)
    as [[err|body] s']; [reflexivity|].
  destruct (isNil res || (length body =? 0)%nat); [reflexivity|].
  destruct res; reflexivity.
Qed.

Lemma request_body_events (c : RequestBuilder) (ctx : option GoContext)
    (url : string) (post : bool) (data : Payload) (needData : bool)
    (s : State) :
  (In EvReadAll (newEvents s (snd (request c ctx url post data needData s)))
   -> needData = true)
  /\ (In EvDiscard (newEvents s (snd (request c ctx url post data needData s)))
      -> needData = false).
Proof.
  destruct (request_not_started c ctx url post data needData s)
    as [->|(Hclean & enc & httpReq & Henc & Hbuild)].
  { rewrite newEvents_nil. split; intros []. }
  destruct (request_trace c ctx url post data needData s enc httpReq
              Hclean Henc Hbuild) as [Htrace _].
  cbv zeta in Htrace. rewrite Htrace. clear Htrace.
  set (fileEvs := if negb (isEmpty (logFile c)) then [_] else []).
  set (errEvs := if log c then [_] else []).
  set (run := doLoop _ _ _ _ _ _).
  assert (Hf : forall e, In e fileEvs -> isNetwork e = false).
  { subst fileEvs. destruct (negb _); intros e Hin;
      [destruct Hin as [<-|[]]; reflexivity|destruct Hin]. }
  assert (He : forall e, In e errEvs -> isNetwork e = false).
  { subst errEvs. destruct (log c); intros e Hin;
      [destruct Hin as [<-|[]]; reflexivity|destruct Hin]. }
  assert (Hr : forall e, In e (snd run) -> exists t r, e = EvRoundTrip t r).
  { intros e. apply doLoop_all_trips. }
  assert (Hgen : forall e,
            (e = EvReadAll \/ e = EvDiscard) ->
            In e (fileEvs ++ errEvs ++ snd run
                  ++ match fst (fst run) with
                     | inl _ => []
                     | inr _ => [if needData then EvReadAll else EvDiscard;
                                 EvBodyClose]
                     end) ->
            e = (if needData then EvReadAll else EvDiscard)).
  { intros e He0. rewrite !in_app_iff. intros [Hin|[Hin|[Hin|Hin]]].
    - apply Hf in Hin. destruct He0 as [-> | ->]; discriminate.
    - apply He in Hin. destruct He0 as [-> | ->]; discriminate.
    - destruct (Hr e Hin) as (t & r & ->).
      destruct He0 as [He0|He0]; discriminate.
    - destruct (fst (fst run)); [destruct Hin|].
      destruct Hin as [<-|[<-|[]]]; [reflexivity|].
      destruct He0 as [He0|He0]; discriminate. }
  destruct (if negb (isEmpty (logFile c)) then _ else None).
  { split; intros Hin; apply Hf in Hin; discriminate. }
  split; intros Hin.
  - apply (Hgen EvReadAll (or_introl eq_refl)) in Hin.
    destruct needData; [reflexivity|discriminate].
  - apply (Hgen EvDiscard (or_intror eq_refl)) in Hin.
    destruct needData; [discriminate|reflexivity].
Qed.

(** X18. [Get] and [PostJSON] read the response body into memory only for
    a caller that gave a target, and discard it only for one that gave
    none: no execution with a nil target reads the body, none with a target
    discards it. *)
Theorem body_read_only_for_target (c : RequestBuilder)
    (ctx : option GoContext) (url : string) (data : Payload) (res : Target)
    (s : State) :
  (In EvReadAll (newEvents s (snd (Get c ctx url res s))) -> isNil res = false)
  /\ (In EvDiscard (newEvents s (snd (Get c ctx url res s))) ->
      isNil res = true)
  /\ (In EvReadAll (newEvents s (snd (PostJSON c ctx url data res s))) ->
      isNil res = false)
  /\ (In EvDiscard (newEvents s (snd (PostJSON c ctx url data res s))) ->
      isNil res = true).
Proof.
  rewrite Get_state, PostJSON_state.
  destruct (request_body_events c ctx url false PNil (negb (isNil res)) s)
    as [Hg1 Hg2].
  destruct (request_body_events c ctx url true data (negb (isNil res)) s)
    as [Hp1 Hp2].
  repeat split; intros Hin.
  - apply Hg1 in Hin. destruct (isNil res); [discriminate|reflexivity].
  - apply Hg2 in Hin. destruct (isNil res); [reflexivity|discriminate].
  - apply Hp1 in Hin. destruct (isNil res); [discriminate|reflexivity].
  - apply Hp2 in Hin. destruct (isNil res); [reflexivity|discriminate].
Qed.

(** X19. A caller without a target gets no error from any response below
    300, whatever its body, readable or not: [Get] and [PostJSON] with a nil
    target discard the body and return nil. *)
Theorem nil_target_ignores_body (c : RequestBuilder) (ctx : option GoContext)
    (url : string) (data : Payload) (s s1 : State) (resp : Response) :
  (StatusCode resp < 300)%Z ->
  (exchange c ctx url false PNil s = (inr resp, s1) ->
   fst (Get c ctx url TNil s) = (None, TNil))
  /\ (exchange c ctx url true data s = (inr resp, s1) ->
      fst (PostJSON c ctx url data TNil s) = (None, TNil)).
Proof.
  intros Hcode.
  split; intros Hex; unfold Get, PostJSON, request, bind; rewrite Hex;
    unfold readResponse, defer, bind, emit, fail, ret; simpl;
    destruct (Z.leb_spec 300 (StatusCode resp)); (lia || reflexivity).
Qed.

(** *** A new builder *)


End Further.

(** ** The theorems at work in the concrete setting *)

#[local] Existing Instance demo.

(** C1 fails as stated: on a builder whose proxy URL did not parse,
    [Compressed] still switches compression on and [Header] still sets a
    header. *)
Lemma sticky_noop_counterexample :
  buildErr poisoned = Some (LibError "net/url" "missing protocol scheme")
  /\ enableCompress poisoned = false
  /\ enableCompress (Compressed poisoned) = true
  /\ Compressed poisoned <> poisoned
  /\ header (Header "X-Id" "7" poisoned) !! "X-Id" = Some ["7"]
  /\ header poisoned !! "X-Id" = None.
Proof. repeat split; try reflexivity. intros Heq. discriminate (f_equal enableCompress Heq). Qed.

Lemma buildErr_sticky_witness :
  buildErr poisoned = Some (LibError "net/url" "missing protocol scheme")
  /\ buildErr (fst (configureAll
                      [CallHeader "X-Id" "7"; CallCompressed;
                       CallWithProxy "http://proxy:3128"; CallLog []]
                      poisoned demoStore))
     = Some (LibError "net/url" "missing protocol scheme")
  /\ Get (fst (configureAll
                 [CallHeader "X-Id" "7"; CallCompressed;
                  CallWithProxy "http://proxy:3128"; CallLog []]
                 poisoned demoStore))
         background "http://h/" TNil okHello
     = ((Some (LibError "net/url" "missing protocol scheme"), TNil), okHello).
Proof.
  split; [reflexivity|].
  destruct (buildErr_sticky
              [CallHeader "X-Id" "7"; CallCompressed;
               CallWithProxy "http://proxy:3128"; CallLog []]
              poisoned demoStore
              (LibError "net/url" "missing protocol scheme") eq_refl)
    as (_ & Hb & _ & _ & Hget & _).
  split; [exact Hb|apply Hget].
Defined.

Lemma status_classification_witness :
  fst (request New background "http://h/" false PNil true notFound)
  = inl (ErrorfResponse 404 "404 Not Found" "not found")
  /\ fst (request New background "http://h/" false PNil false notFound)
     = inl (ErrorfResponse 404 "404 Not Found" EmptyString)
  /\ fst (request New background "http://h/" false PNil true okHello)
     = inr (bytes "hello").
Proof.
  split; [|split].
  - edestruct (status_classification New background "http://h/" false PNil
                 true notFound) as (Hfull & _ & _).
    + vm_compute. reflexivity.
    + reflexivity.
    + apply Hfull; [vm_compute; discriminate|reflexivity].
  - edestruct (status_classification New background "http://h/" false PNil
                 false notFound) as (_ & Hempty & _).
    + vm_compute. reflexivity.
    + discriminate.
    + apply Hempty; [vm_compute; discriminate|reflexivity].
  - edestruct (status_classification New background "http://h/" false PNil
                 true okHello) as (_ & _ & Hok).
    + vm_compute. reflexivity.
    + reflexivity.
    + apply Hok. reflexivity.
Defined.

Lemma payload_encoding_witness :
  exists t q,
    head (roundTrips
            (newEvents okHello
               (snd (request New background "http://h/" true (PString "[1]")
                             true okHello))))
    = Some (t, q)
    /\ ReqBody q = Some (bytes "[1]").
Proof.
  eexists _, _. split; [vm_compute; reflexivity|].
  refine (proj1 (proj1 (payload_encoding New background "http://h/"
                          (PString "[1]") true okHello)
                   (bytes "[1]") _ _ _ _) eq_refl).
  - right. right. left. exists "[1]". split; reflexivity.
  - vm_compute. reflexivity.
Defined.

Lemma compression_wire_and_log_witness :
  exists t q,
    head (roundTrips
            (newEvents okHello
               (snd (request (Log [] (Compressed New)) background "http://h/"
                             true (PString "[1]") true okHello))))
    = Some (t, q)
    /\ ReqBody q = Some (x1f :: x8b :: bytes "[1]")
    /\ Header_Values (ReqHeader q) "Content-Encoding" = ["gzip"].
Proof.
  eexists _, _. split; [vm_compute; reflexivity|].
  destruct (proj1 (compression_wire_and_log (Log [] (Compressed New))
                     background "http://h/" true okHello)
              (PString "[1]") (bytes "[1]") eq_refl) as (Hwire & _ & _).
  edestruct Hwire as [Hgz _]; [vm_compute; reflexivity|].
  destruct (Hgz eq_refl) as (z & Hz & Hbody & Hhdr).
  injection Hz as <-. split; [exact Hbody|].
  rewrite Hhdr. apply Header_Values_Set.
Defined.

(** The line logged for a compressed POST shows the payload as it was
    given. *)
Example compressed_post_log :
  logged (newEvents okHello
            (snd (request (Log [] (Compressed New)) background "http://h/"
                          true (PString "[1]") true okHello)))
  = [("HTTP DEBUG: curl -v -X POST -H " ++ dquote
      ++ "Content-Type: application/json" ++ dquote
      ++ " --data-binary '[1]' 'http://h/'" ++ newline)%string].
Proof. vm_compute. reflexivity. Qed.

Lemma redirect_disabled_witness :
  (exists err,
     fst (request (DisableRedirect New) background "http://h/" false PNil true
                  movedAway) = inl err
     /\ errors_Is err ErrRedirect = true)
  /\ length (roundTrips
               (newEvents movedAway
                  (snd (request (DisableRedirect New) background "http://h/"
                                false PNil true movedAway)))) = 1
  /\ length (network
               (world (snd (request (DisableRedirect New) background
                              "http://h/" false PNil true movedAway)))) = 1.
Proof.
  destruct (redirect_disabled (DisableRedirect New) background "http://h/"
              false PNil true movedAway eq_refl) as (_ & _ & Hredirect).
  edestruct Hredirect as ((err & Herr & _ & His) & Htrips & Hnet).
  - reflexivity.
  - vm_compute. reflexivity.
  - reflexivity.
  - reflexivity.
  - reflexivity.
  - reflexivity.
  - split; [exists err; split; [exact Herr|exact His]|].
    rewrite Htrips, Hnet. split; reflexivity.
Defined.

Lemma log_file_failure_witness :
  fst (request (LogFile "/tmp/req.log" New) background "http://h/" false PNil
               true readOnlyDisk)
  = inl (ErrorfLog (LibError "os" "permission denied"))
  /\ length (network
               (world (snd (request (LogFile "/tmp/req.log" New) background
                              "http://h/" false PNil true readOnlyDisk)))) = 1.
Proof.
  destruct (proj1 (log_file_failure (LogFile "/tmp/req.log" New) background
                     "http://h/" false PNil true readOnlyDisk)
              "/tmp/req.log"
              (bytes "curl -v -X GET 'http://h/'") 493%Z
              (LibError "os" "permission denied"))
    as (_ & _ & Hres & _ & Hnet).
  - vm_compute. left. reflexivity.
  - reflexivity.
  - split; [exact Hres|]. rewrite Hnet. reflexivity.
Defined.

Lemma WithProxy_clones_witness :
  client (fst (WithProxy "http://proxy:3128" New demoStore))
  = Some (ClientAt 0)
  /\ Transport (deref (snd (WithProxy "http://proxy:3128" New demoStore))
                      (ClientAt 0))
     = Some (HttpTransport (Some "http://proxy:3128"))
  /\ deref (snd (WithProxy "http://proxy:3128" New demoStore)) DefaultClient
     = deref demoStore DefaultClient.
Proof.
  destruct (WithProxy_clones New demoStore) as (_ & Hframe & Hattach).
  destruct (Hattach "http://proxy:3128" "http://proxy:3128"
              eq_refl eq_refl eq_refl) as (Hc & _ & _ & Hd).
  split; [exact (f_equal client Hc)|].
  split; [exact (f_equal Transport Hd)|].
  apply Hframe. exact I.
Defined.

Lemma terminal_skip_and_plain_witness :
  fst (Get New background "http://h/" (TPlainHtml "old") okHello)
  = (None, TPlainHtml "hello")
  /\ fst (Get New background "http://h/" TNil okHello) = (None, TNil).
Proof.
  split.
  - edestruct (proj2 (terminal_skip_and_plain New background "http://h/"
                        (TPlainHtml "old") okHello)) as [_ Hplain].
    + vm_compute. reflexivity.
    + rewrite Hplain; [reflexivity|reflexivity|discriminate].
  - edestruct (proj2 (terminal_skip_and_plain New background "http://h/"
                        TNil okHello)) as [Hskip _].
    + vm_compute. reflexivity.
    + rewrite Hskip; [reflexivity|left; reflexivity].
Defined.

Lemma request_go_agrees_witness :
  request_go_PostJSON New background "http://h/" (PString "[1]")
    decodeTarget okHello
  = PostJSON New background "http://h/" (PString "[1]")
      decodeTarget okHello
  /\ request_go_Get New background "http://h/" decodeTarget okHello
     = Get New background "http://h/" decodeTarget okHello.
Proof.
  apply (request_go_agrees New background "http://h/" (PString "[1]")
           decodeTarget okHello).
  reflexivity.
Defined.

(** ** The further properties at work *)

Lemma configured_headers_canonical_witness :
  CanonicalMIMEHeaderKey "X-Id" = "X-Id" /\ exists v, ["7"] = [v].
Proof.
  apply (configured_headers_canonical
           [CallHeader "x-id" "7"; CallCompressed] demoStore "X-Id" ["7"]).
  reflexivity.
Defined.

Lemma addHeaders_any_order_witness :
  addHeaders [("B", ["2"]); ("A", ["1"])] ∅
  = header (Header "b" "2" (Header "a" "1" New))
  /\ applyHeaders (header (Header "b" "2" (Header "a" "1" New))) ∅
     = header (Header "b" "2" (Header "a" "1" New)).
Proof.
  apply (addHeaders_any_order (header (Header "b" "2" (Header "a" "1" New)))
           [("B", ["2"]); ("A", ["1"])]).
  - apply singleValued_Set, singleValued_Set, singleValued_empty.
  - vm_compute. solve [reflexivity | apply perm_swap].
Defined.


Lemma post_content_type_forced_witness :
  exists t q,
    head (roundTrips
            (newEvents okHello
               (snd (request (Header "content-type" "text/plain" New)
                             background "http://h/" true (PString "[1]")
                             true okHello))))
    = Some (t, q)
    /\ Header_Values (ReqHeader q) "Content-Type" = ["application/json"].
Proof.
  eexists _, _. split; [vm_compute; reflexivity|].
  refine (post_content_type_forced (Header "content-type" "text/plain" New)
            background "http://h/" (PString "[1]") true okHello _ _ _).
  vm_compute. reflexivity.
Defined.

Lemma Header_commute_witness :
  Header "accept" "*/*" (Header "x-id" "7" New)
  = Header "x-id" "7" (Header "accept" "*/*" New).
Proof.
  apply (Header_commute New "accept" "x-id" "*/*" "7").
  vm_compute. discriminate.
Defined.

Lemma first_proxy_error_kept_witness :
  Get (fst (configureAll [CallWithProxy "://other"; CallCompressed]
              (fst (WithProxy "://proxy" New demoStore)) demoStore))
      background "http://h/" TNil okHello
  = ((Some (LibError "net/url" "missing protocol scheme"), TNil), okHello).
Proof.
  destruct (first_proxy_error_kept New demoStore "://proxy"
              (LibError "net/url" "missing protocol scheme")
              [CallWithProxy "://other"; CallCompressed]
              eq_refl eq_refl eq_refl) as (_ & Hget & _).
  apply Hget.
Defined.

Lemma WithProxy_twice_witness :
  exists p,
    client (fst (WithProxy "http://p2:3128"
                   (fst (WithProxy "http://p1:3128" New demoStore))
                   (snd (WithProxy "http://p1:3128" New demoStore))))
    = Some p
    /\ Transport
         (deref (snd (WithProxy "http://p2:3128"
                        (fst (WithProxy "http://p1:3128" New demoStore))
                        (snd (WithProxy "http://p1:3128" New demoStore)))) p)
       = Some (HttpTransport (Some "http://p2:3128")).
Proof.
  pose proof (WithProxy_twice New demoStore "http://p1:3128" "http://p2:3128"
                "http://p1:3128" "http://p2:3128"
                eq_refl eq_refl eq_refl eq_refl eq_refl) as Htwice.
  cbv zeta in Htwice. destruct Htwice as [(p & Hc & Hd) _].
  exists p. split; [exact Hc|]. rewrite Hd. reflexivity.
Defined.

Lemma first_trip_target_witness :
  exists t q,
    head (roundTrips
            (newEvents okHello
               (snd (request New background "http://h/" true (PString "[1]")
                             true okHello))))
    = Some (t, q)
    /\ Method q = "POST" /\ demoParse "http://h/" = inr (ReqURL q)
    /\ background = Some (ReqCtx q).
Proof.
  eexists _, _. split; [vm_compute; reflexivity|].
  refine (first_trip_target New background "http://h/" true (PString "[1]")
            true okHello _ _ _).
  vm_compute. reflexivity.
Defined.

Lemma construction_failure_has_no_effect_witness :
  request (LogFile "/tmp/req.log" (Log [] New)) background "://nowhere"
          false PNil true readOnlyDisk
  = (inl (LibError "net/url" "missing protocol scheme"), readOnlyDisk).
Proof.
  refine (proj2 (construction_failure_has_no_effect
                   (LogFile "/tmp/req.log" (Log [] New)) background
                   "://nowhere" false PNil true readOnlyDisk _ eq_refl _)
            tt _ eq_refl eq_refl).
  reflexivity.
Defined.

Lemma response_body_released_witness :
  exists s1,
    snd (request New background "http://h/" false PNil false notFound)
    = {| world := world s1; store := store s1;
         trace := trace s1 ++ [EvDiscard; EvBodyClose] |}.
Proof.
  eexists.
  eapply (proj1 (response_body_released New background "http://h/" false
                   PNil false notFound _)).
  vm_compute. reflexivity.
Defined.

Lemma read_failure_precedes_status_witness :
  fst (request New background "http://h/" false PNil true brokenBody)
  = inl (LibError "io" "unexpected EOF").
Proof.
  eapply (read_failure_precedes_status New background "http://h/" false PNil
            brokenBody _ brokenResponse).
  - vm_compute. reflexivity.
  - reflexivity.
Defined.

Lemma store_unchanged_without_flag_witness :
  store (snd (request (Compressed New) background "http://h/" true
                      (PString "[1]") true okHello))
  = store okHello.
Proof.
  apply (store_unchanged_without_flag (Compressed New) background "http://h/"
           true (PString "[1]") true okHello).
  reflexivity.
Defined.

Lemma payload_normal_form_witness :
  request (Log [] (Compressed New)) background "http://h/" true
          (PString "[1]") true okHello
  = request (Log [] (Compressed New)) background "http://h/" true
            (PBytes (bytes "[1]")) true okHello.
Proof.
  apply (payload_normal_form (Log [] (Compressed New)) background "http://h/"
           (PString "[1]") (bytes "[1]") true okHello).
  reflexivity.
Defined.

Lemma logs_written_witness :
  logged (newEvents okHello
            (snd (request (LogFile "/tmp/req.log" (Log [] New)) background
                          "http://h/" false PNil true okHello)))
  = ["curl -v -X GET 'http://h/'";
     ("HTTP DEBUG: curl -v -X GET 'http://h/'" ++ newline)%string].
Proof.
  edestruct (logs_written (LogFile "/tmp/req.log" (Log [] New)) background
               "http://h/" false PNil true okHello) as [_ Hfile].
  - reflexivity.
  - reflexivity.
  - vm_compute. reflexivity.
  - rewrite Hfile; reflexivity.
Defined.

Lemma redirect_disabled_single_trip_witness :
  length (roundTrips
            (newEvents movedAway
               (snd (request (DisableRedirect New) background "http://h/"
                             false PNil true movedAway)))) <= 1
  /\ (network (world (snd (request (DisableRedirect New) background
                             "http://h/" false PNil true movedAway)))
      = network (world movedAway)
      \/ network (world (snd (request (DisableRedirect New) background
                                "http://h/" false PNil true movedAway)))
         = tail (network (world movedAway))).
Proof.
  apply (redirect_disabled_single_trip (DisableRedirect New) background
           "http://h/" false PNil true movedAway).
  reflexivity.
Defined.

Lemma proxy_transport_used_witness :
  exists t q,
    head (roundTrips
            (newEvents proxiedState
               (snd (request
                       (DisableRedirect
                          (fst (WithProxy "http://proxy:3128" New demoStore)))
                       background "http://h/" false PNil true proxiedState))))
    = Some (t, q)
    /\ t = Some (HttpTransport (Some "http://proxy:3128")).
Proof.
  eexists _, _. split; [vm_compute; reflexivity|].
  refine (proxy_transport_used New
            (DisableRedirect (fst (WithProxy "http://proxy:3128" New demoStore)))
            demoStore "http://proxy:3128" "http://proxy:3128" background
            "http://h/" false PNil true proxiedState _ _
            eq_refl eq_refl eq_refl eq_refl eq_refl _).
  vm_compute. reflexivity.
Defined.

Lemma body_read_only_for_target_witness :
  In EvDiscard (newEvents okHello
                  (snd (Get New background "http://h/" TNil okHello)))
  /\ isNil (@TNil demo) = true.
Proof.
  split; [vm_compute; auto|].
  apply (proj1 (proj2 (body_read_only_for_target New background "http://h/"
                         PNil TNil okHello))).
  vm_compute. auto.
Defined.

Lemma nil_target_ignores_body_witness :
  fst (Get New background "http://h/" TNil brokenBody) = (None, TNil).
Proof.
  refine (proj1 (nil_target_ignores_body New background "http://h/" PNil
                   brokenBody _ brokenResponse _) _).
  - reflexivity.
  - vm_compute. reflexivity.
Defined.

